(** * HANDIQ booking backend: the handlers of [main.py] over a document store

    The handlers of [src/main.py] are embedded as computations in a small
    state-and-exception monad.  The state is the content of the four
    collections the handlers touch, together with the log of the calls that
    reached the store.  Python integers are [Z], Python floats are binary64
    primitive floats, [datetime] values are microseconds since the epoch. *)

From Stdlib Require Import ZArith List String Ascii Bool Lia.
From Stdlib Require Import Floats DecimalString.
From Stdlib Require Import Permutation Sorted.
Import ListNotations.
Open Scope string_scope.
Open Scope Z_scope.
Open Scope list_scope.

(** ** Identifiers: [bson.ObjectId]

    An [ObjectId] is a string of bytes, twelve for every id that the store
    hands out, kept here as hexadecimal digits, two per byte.  The
    constructor accepts a string of exactly twenty-four characters that
    [bytes.fromhex] decodes: pairs of hexadecimal digits, in either letter
    case, with ASCII whitespace allowed before each pair and at the end;
    [str] renders the digits in lower case. *)

Inductive nibble : Set :=
| X0 | X1 | X2 | X3 | X4 | X5 | X6 | X7
| X8 | X9 | Xa | Xb | Xc | Xd | Xe | Xf.

Scheme Equality for nibble.

Definition ObjectId : Set := list nibble.

Definition ObjectId_eqb (a b : ObjectId) : bool :=
  if list_eq_dec nibble_eq_dec a b then true else false.

Definition unhex (c : ascii) : option nibble :=
  match c with
  | "0" => Some X0 | "1" => Some X1 | "2" => Some X2 | "3" => Some X3
  | "4" => Some X4 | "5" => Some X5 | "6" => Some X6 | "7" => Some X7
  | "8" => Some X8 | "9" => Some X9
  | "a" | "A" => Some Xa | "b" | "B" => Some Xb | "c" | "C" => Some Xc
  | "d" | "D" => Some Xd | "e" | "E" => Some Xe | "f" | "F" => Some Xf
  | _ => None
  end%char.

Definition hex (n : nibble) : ascii :=
  match n with
  | X0 => "0" | X1 => "1" | X2 => "2" | X3 => "3"
  | X4 => "4" | X5 => "5" | X6 => "6" | X7 => "7"
  | X8 => "8" | X9 => "9" | Xa => "a" | Xb => "b"
  | Xc => "c" | Xd => "d" | Xe => "e" | Xf => "f"
  end%char.

(** ASCII whitespace: space, tab, line feed, vertical tab, form feed and
    carriage return. *)
Definition isspace (c : ascii) : bool :=
  match c with
  | " " | "009" | "010" | "011" | "012" | "013" => true
  | _ => false
  end%char.

(** [bytes.fromhex(s)]: whitespace is skipped before a pair of digits, never
    between the two digits of a pair; [None] stands for [ValueError]. *)
Fixpoint fromhex (s : string) : option (list nibble) :=
  match s with
  | EmptyString => Some []
  | String c r =>
      if isspace c then fromhex r
      else
        match unhex c, r with
        | Some top, String d r' =>
            match unhex d, fromhex r' with
            | Some bot, Some rest => Some (top :: bot :: rest)
            | _, _ => None
            end
        | _, _ => None
        end
  end.

Fixpoint hexlify (o : list nibble) : string :=
  match o with
  | [] => EmptyString
  | n :: r => String (hex n) (hexlify r)
  end.

(** [ObjectId(id_str)]: [None] stands for the [InvalidId] exception. *)
Definition ObjectId_new (id_str : string) : option ObjectId :=
  if (String.length id_str =? 24)%nat then fromhex id_str else None.

(** [str(_id)] *)
Definition str (o : ObjectId) : string := hexlify o.

(** ** Numbers *)

Definition datetime : Set := Z.

(** [timedelta(hours=h)], in microseconds *)
Definition timedelta_hours (h : Z) : Z := h * 3600 * 1000000.

(** The float nearest to a Python integer (ties to even); [None] is the
    [OverflowError] that Python raises when the integer is too large for a
    binary64. *)
Definition float_of_int (z : Z) : option float :=
  if Z.abs z <? 2 ^ 1024 - 2 ^ 970
  then Some (SF2Prim (binary_normalize prec emax z 0 false))
  else None.

(** The text of an integer inside an f-string. *)
Definition str_int (z : Z) : string := NilZero.string_of_int (Z.to_int z).

(** ** Documents *)

Inductive Status : Set := pending_payment | confirmed | cancelled | failed.

Scheme Equality for Status.

Module Workshop.
(** [price] is optional because the handler reads it with
    [w.get("price", 0)]; the list-valued fields of the seed data, which no
    handler reads, are left out. *)
Record t : Set := mk {
  title : string;
  slug : string;
  description : string;
  price : option float;
  duration_minutes : Z;
  location : string;
  instructor : string;
  accent_color : string
}.
End Workshop.

Module Session.
Record t : Set := mk {
  _id : ObjectId;
  workshop_slug : string;
  start_time : datetime;
  end_time : datetime;
  capacity : Z
}.
End Session.

Module Booking.
Record t : Set := mk {
  _id : ObjectId;
  workshop_slug : string;
  session_id : string;
  customer_name : string;
  customer_email : string;
  customer_phone : option string;
  seats : Z;
  amount : float;
  status : Status;
  payment_reference : option string
}.
End Booking.

Module Email.
Record t : Set := mk {
  type : string;
  to : string;
  subject : string;
  booking_id : string;
  payment_reference : option string
}.
End Email.

(** ** Request models *)

Module BookingRequest.
Record t : Set := mk {
  workshop_slug : string;
  session_id : string;
  customer_name : string;
  customer_email : string;
  customer_phone : option string;
  seats : Z
}.
End BookingRequest.

Module PaymentConfirmRequest.
Record t : Set := mk {
  booking_id : string;
  payment_reference : string
}.
End PaymentConfirmRequest.

(** ** The store and the monad of handlers *)

Inductive Collection : Set := c_workshop | c_session | c_booking | c_email.

Inductive DbCall : Set :=
| FindOne (c : Collection)
| Find (c : Collection)
| Aggregate (c : Collection)
| UpdateOne (c : Collection)
| InsertOne (c : Collection).

Record Store : Set := mkStore {
  workshop : list Workshop.t;
  session : list Session.t;
  booking : list Booking.t;
  email : list Email.t
}.

(** [calls] lists the calls that reached the store, oldest first. *)
Record World : Set := mkWorld {
  db : Store;
  calls : list DbCall
}.

Inductive exn : Set :=
| HTTPException (status_code : Z) (detail : string)
| PyError (name : string).

Inductive outcome (A : Type) : Type :=
| Return (a : A)
| Raise (e : exn).

Arguments Return {A} a.
Arguments Raise {A} e.

Definition M (A : Type) : Type := World -> outcome A * World.

Definition ret {A} (a : A) : M A := fun w => (Return a, w).

Definition raise {A} (e : exn) : M A := fun w => (Raise e, w).

Definition bind {A B} (m : M A) (k : A -> M B) : M B :=
  fun w =>
    match m w with
    | (Return a, w') => k a w'
    | (Raise e, w') => (Raise e, w')
    end.

Declare Scope handler_scope.
Delimit Scope handler_scope with handler.

Notation "x <- m ;; k" := (bind m (fun x => k))
  (at level 100, m at next level, right associativity) : handler_scope.
Notation "m ;;; k" := (bind m (fun _ => k))
  (at level 100, right associativity) : handler_scope.

Open Scope handler_scope.

Definition log (c : DbCall) (w : World) : World :=
  mkWorld (db w) (calls w ++ [c]).

(** A read: the call is logged and the answer computed from the content. *)
Definition query {A} (c : DbCall) (f : Store -> A) : M A :=
  fun w => (Return (f (db w)), log c w).

(** A write: the call is logged and the content replaced. *)
Definition command {A} (c : DbCall) (f : Store -> A * Store) : M A :=
  fun w => let (a, d) := f (db w) in (Return a, mkWorld d (calls w ++ [c])).

(** ** The document store

    Modelled from the spec: the module [database] ([db], [create_document])
    and the driver behind it are not among the sources.  The store offers,
    per collection, insert-and-return-id, find by filter with optional sort
    and limit, a single update by id, and a grouping/summing aggregation
    over a filtered set.  A collection is the list of its
    documents in insertion order; the [_id] that the store gives to a new
    document is an argument of the insertion. *)

(** [db["workshop"].find_one({"slug": slug})] *)
Definition find_one_workshop (slug : string) : M (option Workshop.t) :=
  query (FindOne c_workshop) (fun d =>
    find (fun w => (Workshop.slug w =? slug)%string) (workshop d)).

(** [db["session"].find_one({"_id": i})] *)
Definition find_one_session (i : ObjectId) : M (option Session.t) :=
  query (FindOne c_session) (fun d =>
    find (fun s => ObjectId_eqb (Session._id s) i) (session d)).

(** [db["booking"].find_one({"_id": i})] *)
Definition find_one_booking (i : ObjectId) : M (option Booking.t) :=
  query (FindOne c_booking) (fun d =>
    find (fun b => ObjectId_eqb (Booking._id b) i) (booking d)).

(** [.sort("start_time", 1)]: ascending, documents with equal keys keep
    their order. *)
Fixpoint insert_by_start_time (s : Session.t) (l : list Session.t) : list Session.t :=
  match l with
  | [] => [s]
  | x :: r =>
      if Session.start_time s <=? Session.start_time x
      then s :: l
      else x :: insert_by_start_time s r
  end.

Definition sort_by_start_time (l : list Session.t) : list Session.t :=
  fold_right insert_by_start_time [] l.

(** [db["session"].find({"start_time": {"$gte": now}}).sort("start_time", 1).limit(n)] *)
Definition find_sessions_from (now : datetime) (n : nat) : M (list Session.t) :=
  query (Find c_session) (fun d =>
    firstn n (sort_by_start_time
      (filter (fun s => now <=? Session.start_time s) (session d)))).

(** [db["session"].find({"start_time": {"$gte": lo, "$lte": hi}})] *)
Definition in_window (lo hi : datetime) (s : Session.t) : bool :=
  (lo <=? Session.start_time s) && (Session.start_time s <=? hi).

Definition find_sessions_between (lo hi : datetime) : M (list Session.t) :=
  query (Find c_session) (fun d => filter (in_window lo hi) (session d)).

(** [db["booking"].find({"session_id": sid, "status": st})] *)
Definition on_session_with_status (sid : string) (st : Status) (b : Booking.t) : bool :=
  (Booking.session_id b =? sid)%string && Status_beq (Booking.status b) st.

Definition find_bookings (sid : string) (st : Status) : M (list Booking.t) :=
  query (Find c_booking) (fun d =>
    filter (on_session_with_status sid st) (booking d)).

(** The stage
    [{"$match": {"session_id": sid, "status": {"$in": ["pending_payment", "confirmed"]}}}] *)
Definition status_in_pending_confirmed (b : Booking.t) : bool :=
  match Booking.status b with
  | pending_payment | confirmed => true
  | cancelled | failed => false
  end.

Definition match_stage (sid : string) (b : Booking.t) : bool :=
  (Booking.session_id b =? sid)%string && status_in_pending_confirmed b.

Definition sum (l : list Z) : Z := fold_right Z.add 0 l.

(** The stage [{"$group": {"_id": None, "seats": {"$sum": "$seats"}}}]: one
    group holding the sum, and no group at all over no document. *)
Definition group_stage (bs : list Booking.t) : list Z :=
  match bs with
  | [] => []
  | _ :: _ => [sum (map Booking.seats bs)]
  end.

(** [db["booking"].aggregate([match, group])] *)
Definition aggregate_booked (sid : string) : M (list Z) :=
  query (Aggregate c_booking) (fun d =>
    group_stage (filter (match_stage sid) (booking d))).

(** [next(booked, {"seats": 0}).get("seats", 0)] *)
Definition next_seats (booked : list Z) : Z :=
  match booked with
  | [] => 0
  | seats :: _ => seats
  end.

(** [update_one]: the first document that matches is updated; the count of
    matched documents (0 or 1) is returned. *)
Fixpoint update_first {A} (p : A -> bool) (f : A -> A) (l : list A) : list A * Z :=
  match l with
  | [] => ([], 0)
  | x :: r =>
      if p x then (f x :: r, 1)
      else let (r', n) := update_first p f r in (x :: r', n)
  end.

Definition set_confirmed (ref : string) (b : Booking.t) : Booking.t :=
  Booking.mk (Booking._id b) (Booking.workshop_slug b) (Booking.session_id b)
    (Booking.customer_name b) (Booking.customer_email b)
    (Booking.customer_phone b) (Booking.seats b) (Booking.amount b)
    confirmed (Some ref).

(** [db["booking"].update_one({"_id": i},
      {"$set": {"status": "confirmed", "payment_reference": ref}}).matched_count] *)
Definition update_one_confirmed (i : ObjectId) (ref : string) : M Z :=
  command (UpdateOne c_booking) (fun d =>
    let (bs, n) :=
      update_first (fun b => ObjectId_eqb (Booking._id b) i) (set_confirmed ref)
        (booking d) in
    (n, mkStore (workshop d) (session d) bs (email d))).

(** [create_document("booking", b)]: returns the new id as a string. *)
Definition create_document_booking (b : Booking.t) : M string :=
  command (InsertOne c_booking) (fun d =>
    (str (Booking._id b),
     mkStore (workshop d) (session d) (booking d ++ [b]) (email d))).

(** [create_document("email", e)]; the id of a log entry is never read. *)
Definition create_document_email (e : Email.t) : M unit :=
  command (InsertOne c_email) (fun d =>
    (tt, mkStore (workshop d) (session d) (booking d) (email d ++ [e]))).

(** ** Utilities *)

Definition oid (id_str : string) : M ObjectId :=
  match ObjectId_new id_str with
  | Some o => ret o
  | None => raise (HTTPException 400 "Invalid id")
  end.

(** ** Seed data *)

Definition WORKSHOPS : list Workshop.t :=
  [ Workshop.mk "Scrapbooking Workshop" "scrapbooking"
      "Create calming, memory-filled pages with premium papers and embellishments."
      (Some 1999%float) 120 "HANDIQ Studio, Indiranagar" "Aisha Kapoor" "#B58E6D";
    Workshop.mk "Pottery Workshop" "pottery"
      "Mindful clay play: hand-building, wheel basics, glazing."
      (Some 2499%float) 150 "HANDIQ Studio, Indiranagar" "Raghav Menon" "#3F6E73";
    Workshop.mk "Resin Art Workshop" "resin-art"
      "Create glossy, ocean-like pours with resin and pigments."
      (Some 2899%float) 120 "HANDIQ Studio, Indiranagar" "Naina Shah" "#F5B21A";
    Workshop.mk "Embroidery Workshop" "embroidery"
      "Slow-stitch your calm with modern embroidery techniques."
      (Some 1799%float) 120 "HANDIQ Studio, Indiranagar" "Meera Iyer" "#E8DCCF" ].

(** The session document that [ensure_seed] builds for workshop [w] and day
    [d], under the id [i] that the store gives it. *)
Definition seed_session (i : ObjectId) (now : datetime) (w : Workshop.t) (d : Z) : Session.t :=
  let start := now + (d * 24 + 10) * 3600 * 1000000 in
  let end_ := start + Workshop.duration_minutes w * 60 * 1000000 in
  Session.mk i (Workshop.slug w) start end_ 10.

(** ** Handlers *)

Module NextSession.
(** The item that [next_session] returns: the session, the title of its
    workshop and the seats still shown as available. *)
Record t : Set := mk {
  item : Session.t;
  workshop_title : string;
  available_seats : Z
}.
End NextSession.

Definition next_session (now : datetime) : M (option NextSession.t) :=
  sess <- find_sessions_from now 1 ;;
  match sess with
  | [] => ret None
  | session :: _ =>
      w <- find_one_workshop (Session.workshop_slug session) ;;
      let workshop_title :=
        match w with
        | Some w => Workshop.title w
        | None => Session.workshop_slug session
        end in
      booked <- aggregate_booked (str (Session._id session)) ;;
      let total_booked := next_seats booked in
      ret (Some (NextSession.mk session workshop_title
                   (Z.max 0 (Session.capacity session - total_booked))))
  end.

Module BookingResponse.
Record t : Set := mk {
  booking_id : string;
  amount : float;
  currency : string
}.
End BookingResponse.

(** [float(w.get("price", 0))] *)
Definition float_price (w : Workshop.t) : float :=
  match Workshop.price w with
  | Some p => p
  | None => 0%float
  end.

(** [x * n] for a float [x] and an integer [n] *)
Definition mul_float_int (x : float) (n : Z) : M float :=
  match float_of_int n with
  | Some y => ret (PrimFloat.mul x y)
  | None => raise (PyError "OverflowError")
  end.

Definition create_booking (new_id : ObjectId) (payload : BookingRequest.t)
  : M BookingResponse.t :=
  w <- find_one_workshop (BookingRequest.workshop_slug payload) ;;
  match w with
  | None => raise (HTTPException 404 "Workshop not found")
  | Some w =>
      i <- oid (BookingRequest.session_id payload) ;;
      s <- find_one_session i ;;
      match s with
      | None => raise (HTTPException 400 "Invalid session")
      | Some s =>
          if negb (Session.workshop_slug s =? BookingRequest.workshop_slug payload)%string
          then raise (HTTPException 400 "Invalid session")
          else
            booked <- aggregate_booked (BookingRequest.session_id payload) ;;
            let total_booked := next_seats booked in
            let available := Session.capacity s - total_booked in
            if BookingRequest.seats payload >? available
            then raise (HTTPException 400
                          ("Only " ++ str_int available ++ " seats left")%string)
            else
              amount <- mul_float_int (float_price w) (BookingRequest.seats payload) ;;
              booking_id <- create_document_booking
                (Booking.mk new_id
                   (BookingRequest.workshop_slug payload)
                   (BookingRequest.session_id payload)
                   (BookingRequest.customer_name payload)
                   (BookingRequest.customer_email payload)
                   (BookingRequest.customer_phone payload)
                   (BookingRequest.seats payload)
                   amount pending_payment None) ;;
              (create_document_email
                (Email.mk "booking_created"
                   (BookingRequest.customer_email payload)
                   "Your HANDIQ booking is almost complete"
                   booking_id None) ;;;
               ret (BookingResponse.mk booking_id amount "INR"))
      end
  end.

Module BookingView.
(** What [get_booking] returns: the booking with its session and workshop
    attached, each absent when the lookup finds nothing. *)
Record t : Set := mk {
  data : Booking.t;
  session : option Session.t;
  workshop : option Workshop.t
}.
End BookingView.

Definition get_booking (booking_id : string) : M BookingView.t :=
  i <- oid booking_id ;;
  b <- find_one_booking i ;;
  match b with
  | None => raise (HTTPException 404 "Booking not found")
  | Some b =>
      si <- oid (Booking.session_id b) ;;
      s <- find_one_session si ;;
      w <- find_one_workshop (Booking.workshop_slug b) ;;
      ret (BookingView.mk b s w)
  end.

Definition confirm_payment (payload : PaymentConfirmRequest.t) : M string :=
  i <- oid (PaymentConfirmRequest.booking_id payload) ;;
  matched_count <- update_one_confirmed i (PaymentConfirmRequest.payment_reference payload) ;;
  if matched_count =? 0
  then raise (HTTPException 404 "Booking not found")
  else
    i' <- oid (PaymentConfirmRequest.booking_id payload) ;;
    b <- find_one_booking i' ;;
    match b with
    | None => raise (PyError "AttributeError")
    | Some b =>
        (create_document_email
          (Email.mk "booking_confirmed" (Booking.customer_email b)
             "HANDIQ Booking Confirmed"
             (PaymentConfirmRequest.booking_id payload)
             (Some (PaymentConfirmRequest.payment_reference payload))) ;;;
         create_document_email
          (Email.mk "admin_new_booking" "admin@handiq.example"
             "New HANDIQ Booking"
             (PaymentConfirmRequest.booking_id payload) None) ;;;
         ret "confirmed")
    end.

Definition reminder (b : Booking.t) : Email.t :=
  Email.mk "reminder" (Booking.customer_email b)
    "Reminder: Your HANDIQ workshop is in 24 hours"
    (str (Booking._id b)) None.

(** The inner loop of [send_reminders], over the bookings of one session. *)
Fixpoint remind_bookings (bookings : list Booking.t) (count : Z) : M Z :=
  match bookings with
  | [] => ret count
  | b :: rest =>
      (create_document_email (reminder b) ;;;
       remind_bookings rest (count + 1))
  end.

(** The outer loop of [send_reminders], over the sessions. *)
Fixpoint remind_sessions (sessions : list Session.t) (count : Z) : M Z :=
  match sessions with
  | [] => ret count
  | s :: rest =>
      bookings <- find_bookings (str (Session._id s)) confirmed ;;
      count' <- remind_bookings bookings count ;;
      remind_sessions rest count'
  end.

Definition send_reminders (now : datetime) : M Z :=
  let in_24h := now + timedelta_hours 24 in
  sessions <- find_sessions_between now in_24h ;;
  remind_sessions sessions 0.

(** ** Notions used in the statements *)

(** The seats held under the session id string [sid]: the sum of [seats]
    over the bookings filed under [sid] that hold their seats. *)
Fixpoint seats_held (sid : string) (bookings : list Booking.t) : Z :=
  match bookings with
  | [] => 0
  | b :: rest =>
      match string_dec (Booking.session_id b) sid, Booking.status b with
      | left _, pending_payment | left _, confirmed =>
          Booking.seats b + seats_held sid rest
      | _, _ => seats_held sid rest
      end
  end.

(** The booking [b] refers to the session [s]: its [session_id] denotes the
    [_id] of [s], which is how [create_booking] and [get_booking] go from a
    session id string to the session. *)
Definition refers_to (b : Booking.t) (s : Session.t) : bool :=
  match ObjectId_new (Booking.session_id b) with
  | Some i => ObjectId_eqb i (Session._id s)
  | None => false
  end.

(** The seats sold for the session [s]: the sum of [seats] over the bookings
    that refer to [s] and hold their seats. *)
Definition seats_sold (s : Session.t) (bookings : list Booking.t) : Z :=
  sum (map Booking.seats
         (filter (fun b => refers_to b s && status_in_pending_confirmed b) bookings)).

(** The confirmed bookings that are due a reminder at [now]: for each session
    starting between [now] and 24 hours later, the confirmed bookings filed
    under its id. *)
Definition due_bookings (now : datetime) (d : Store) : list Booking.t :=
  flat_map
    (fun s =>
       filter
         (fun b =>
            (Booking.session_id b =? str (Session._id s))%string
            && Status_beq (Booking.status b) confirmed)
         (booking d))
    (filter
       (fun s =>
          (now <=? Session.start_time s)
          && (Session.start_time s <=? now + 24 * 3600 * 1000000))
       (session d)).

(** The error kinds of the specification, read off the HTTP status and the
    message. *)
Definition NotFound (e : exn) : Prop :=
  exists detail, e = HTTPException 404 detail.

Definition InvalidArgument (e : exn) : Prop :=
  exists detail, e = HTTPException 400 detail.

Definition CapacityExceeded (available : Z) (e : exn) : Prop :=
  e = HTTPException 400 ("Only " ++ str_int available ++ " seats left")%string.

(** The documents that a successful [create_booking] inserts, and the
    lookups behind [find_one]. *)
Definition new_booking (new_id : ObjectId) (payload : BookingRequest.t) (amount : float)
  : Booking.t :=
  Booking.mk new_id
    (BookingRequest.workshop_slug payload) (BookingRequest.session_id payload)
    (BookingRequest.customer_name payload) (BookingRequest.customer_email payload)
    (BookingRequest.customer_phone payload) (BookingRequest.seats payload)
    amount pending_payment None.

Definition booking_created (payload : BookingRequest.t) (booking_id : string) : Email.t :=
  Email.mk "booking_created" (BookingRequest.customer_email payload)
    "Your HANDIQ booking is almost complete" booking_id None.

Definition lookup_workshop (slug : string) (d : Store) : option Workshop.t :=
  find (fun w => (Workshop.slug w =? slug)%string) (workshop d).

Definition lookup_session (i : ObjectId) (d : Store) : option Session.t :=
  find (fun s => ObjectId_eqb (Session._id s) i) (session d).

Definition lookup_booking (i : ObjectId) (d : Store) : option Booking.t :=
  find (fun b => ObjectId_eqb (Booking._id b) i) (booking d).

(** The request names an existing workshop [w] and a session [s] of that
    workshop. *)
Definition valid_pair (payload : BookingRequest.t) (d : Store)
    (w : Workshop.t) (s : Session.t) : Prop :=
  lookup_workshop (BookingRequest.workshop_slug payload) d = Some w /\
  exists i,
    ObjectId_new (BookingRequest.session_id payload) = Some i /\
    lookup_session i d = Some s /\
    Session.workshop_slug s = BookingRequest.workshop_slug payload.

(** The availability that the booking gate computes for a request on [s]. *)
Definition availability (payload : BookingRequest.t) (d : Store) (s : Session.t) : Z :=
  Session.capacity s - seats_held (BookingRequest.session_id payload) (booking d).

(** The store with further notification log entries appended. *)
Definition with_email (d : Store) (es : list Email.t) : Store :=
  mkStore (workshop d) (session d) (booking d) (email d ++ es).

(** A handler rejects a malformed identifier before any call reaches the
    store: it raises and leaves the world, call log included, as it was. *)
Definition rejects_malformed_first {A} (handler : string -> M A) : Prop :=
  forall id_str w0,
    ObjectId_new id_str = None -> exists e, handler id_str w0 = (Raise e, w0).

(** Every handler that takes an identifier does so: [create_booking] for its
    session id, [get_booking] and [confirm_payment] for their booking id. *)
Definition malformed_ids_rejected_first : Prop :=
  (forall new_id slug name mail phone seats,
      rejects_malformed_first
        (fun sid => create_booking new_id
                      (BookingRequest.mk slug sid name mail phone seats)))
  /\ rejects_malformed_first get_booking
  /\ (forall ref,
        rejects_malformed_first
          (fun bid => confirm_payment (PaymentConfirmRequest.mk bid ref))).

(** ** A seeded store *)

Definition pottery : Workshop.t :=
  Workshop.mk "Pottery Workshop" "pottery"
    "Mindful clay play: hand-building, wheel basics, glazing."
    (Some 2499%float) 150 "HANDIQ Studio, Indiranagar" "Raghav Menon" "#3F6E73".

Definition id_a : ObjectId :=
  [X6;X5;X4;Xa;X1;Xb;X2;Xc;X3;Xd;X4;Xe;X5;Xf;X6;X0;X7;X1;X8;X2;X9;X3;Xa;X4].

Definition id_b : ObjectId :=
  [X6;X5;X4;Xa;X1;Xb;X2;Xc;X3;Xd;X4;Xe;X5;Xf;X6;X0;X7;X1;X8;X2;X9;X3;Xa;X5].

Definition id_c : ObjectId :=
  [X6;X5;X4;Xa;X1;Xb;X2;Xc;X3;Xd;X4;Xe;X5;Xf;X6;X0;X7;X1;X8;X2;X9;X3;Xa;X6].

(** The first pottery session that [ensure_seed] creates at time 0. *)
Definition pottery_session : Session.t := seed_session id_a 0 pottery 1.

Definition seeded : World :=
  mkWorld (mkStore WORKSHOPS [pottery_session] [] []) [].

Definition request (sid : string) (seats : Z) : BookingRequest.t :=
  BookingRequest.mk "pottery" sid "Asha" "asha@example.com" None seats.

(** A store whose pottery session has room for twenty. *)
Definition roomy_session : Session.t :=
  Session.mk id_a "pottery" 122400000000 131400000000 20.

Definition roomy : World :=
  mkWorld (mkStore WORKSHOPS [roomy_session] [] []) [].

(** The id of the seeded pottery session, as [str] renders it and in upper
    case. *)
Definition sid_lower : string := "654a1b2c3d4e5f60718293a4".

Definition sid_upper : string := "654A1B2C3D4E5F60718293A4".

(** A store in which 12 seats are already held on the capacity-10 pottery
    session (two requests that raced, say). *)
Definition overfull : World :=
  mkWorld
    (mkStore WORKSHOPS [pottery_session]
       [Booking.mk id_b "pottery" sid_lower "Asha" "asha@example.com" None 7
          17493%float pending_payment None;
        Booking.mk id_c "pottery" sid_lower "Ravi" "ravi@example.com" None 5
          12495%float confirmed (Some "PAY_1")]
       [])
    [].

(** A store with one cancelled booking on the pottery session. *)
Definition lapsed_booking : Booking.t :=
  Booking.mk id_b "pottery" sid_lower "Asha" "asha@example.com" None 2
    4998%float cancelled None.

Definition lapsed : World :=
  mkWorld (mkStore WORKSHOPS [pottery_session] [lapsed_booking] []) [].

(** * The remaining handlers *)

(** ** Further store calls

    Modelled from the spec: like the calls above, these belong to the module
    [database] and its driver.  [count_documents] is answered by the driver
    through an aggregation, and is logged as one. *)

(** [db[c].count_documents({})] *)
Definition count_documents (c : Collection) : M Z :=
  query (Aggregate c) (fun d =>
    match c with
    | c_workshop => Z.of_nat (List.length (workshop d))
    | c_session => Z.of_nat (List.length (session d))
    | c_booking => Z.of_nat (List.length (booking d))
    | c_email => Z.of_nat (List.length (email d))
    end).

(** [create_document("workshop", w)] *)
Definition create_document_workshop (w : Workshop.t) : M unit :=
  command (InsertOne c_workshop) (fun d =>
    (tt, mkStore (workshop d ++ [w]) (session d) (booking d) (email d))).

(** [create_document("session", s)] *)
Definition create_document_session (s : Session.t) : M string :=
  command (InsertOne c_session) (fun d =>
    (str (Session._id s),
     mkStore (workshop d) (session d ++ [s]) (booking d) (email d))).

(** The filter [{"workshop_slug": slug, "start_time": {"$gte": now}}] *)
Definition upcoming_of (slug : string) (now : datetime) (s : Session.t) : bool :=
  (Session.workshop_slug s =? slug)%string && (now <=? Session.start_time s).

(** [db["session"].find(filter).sort("start_time", 1)], with [.limit(n)]
    when a limit is given. *)
Definition find_workshop_sessions (slug : string) (now : datetime) (limit : option nat)
  : M (list Session.t) :=
  query (Find c_session) (fun d =>
    let sorted := sort_by_start_time (filter (upcoming_of slug now) (session d)) in
    match limit with
    | Some n => firstn n sorted
    | None => sorted
    end).

(** ** [ensure_seed]

    [connected] tells whether [db] is set; [ids] gives the id that the store
    assigns to the [k]-th session it is asked to create. *)

Fixpoint seed_workshops (ws : list Workshop.t) : M unit :=
  match ws with
  | [] => ret tt
  | w :: rest => (create_document_workshop w ;;; seed_workshops rest)
  end.

(** The loop [for d in range(1, 10)] for one workshop; [k] counts the
    sessions created so far. *)
Fixpoint seed_days (ids : nat -> ObjectId) (now : datetime) (w : Workshop.t)
    (days : list Z) (k : nat) : M nat :=
  match days with
  | [] => ret k
  | d :: rest =>
      (create_document_session (seed_session (ids k) now w d) ;;;
       seed_days ids now w rest (S k))
  end.

Fixpoint seed_sessions (ids : nat -> ObjectId) (now : datetime) (ws : list Workshop.t)
    (k : nat) : M nat :=
  match ws with
  | [] => ret k
  | w :: rest =>
      k' <- seed_days ids now w [1; 2; 3; 4; 5; 6; 7; 8; 9] k ;;
      seed_sessions ids now rest k'
  end.

Definition ensure_seed (connected : bool) (ids : nat -> ObjectId) (now : datetime)
  : M unit :=
  if negb connected then ret tt
  else
    n <- count_documents c_workshop ;;
    ((if n =? 0 then seed_workshops WORKSHOPS else ret tt) ;;;
     (m <- count_documents c_session ;;
      if m =? 0
      then (seed_sessions ids now WORKSHOPS 0 ;;; ret tt)
      else ret tt)).

(** The sessions that [ensure_seed] creates in a store without sessions,
    in the order of their creation: the [k]-th is for workshop [k / 9] and
    day [k mod 9 + 1]. *)
Definition seeded_sessions (ids : nat -> ObjectId) (now : datetime) : list Session.t :=
  map (fun k =>
         seed_session (ids k) now
           (nth (k / 9) WORKSHOPS pottery) (Z.of_nat (k mod 9) + 1))
      (seq 0 36).

(** ** Catalog handlers *)

Module WorkshopView.
(** What [get_workshop] returns. *)
Record t : Set := mk {
  workshop : Workshop.t;
  sessions : list Session.t
}.
End WorkshopView.

Definition get_workshop (now : datetime) (slug : string) : M WorkshopView.t :=
  w <- find_one_workshop slug ;;
  match w with
  | None => raise (HTTPException 404 "Workshop not found")
  | Some w =>
      sessions <- find_workshop_sessions slug now (Some 10%nat) ;;
      ret (WorkshopView.mk w sessions)
  end.

Definition sessions_for_workshop (now : datetime) (workshop : string)
  : M (list Session.t) :=
  find_workshop_sessions workshop now None.

(** ** [initiate_payment] *)

(** [s[-n:]]: the last [n] characters of [s], all of [s] when it is
    shorter. *)
Definition last_chars (n : nat) (s : string) : string :=
  substring (String.length s - n) n s.

Inductive PaymentStart : Set :=
| already_paid
| payment_token (token : string) (amount : float) (currency : string).

Definition initiate_payment (booking_id : string) : M PaymentStart :=
  i <- oid booking_id ;;
  b <- find_one_booking i ;;
  match b with
  | None => raise (HTTPException 404 "Booking not found")
  | Some b =>
      if Status_beq (Booking.status b) confirmed
      then ret already_paid
      else ret (payment_token ("PAY_" ++ last_chars 6 booking_id)%string
                  (Booking.amount b) "INR")
  end.

(** ** [add_review]

    The review collection is touched by the review handlers only; the state
    of [add_review] is that collection, and [new_id] the id that the store
    gives to the new document. *)

Module Review.
Record t : Set := mk {
  _id : ObjectId;
  workshop_slug : string;
  name : string;
  rating : Z;
  comment : string
}.
End Review.

Definition add_review (new_id : ObjectId) (workshop_slug name : string) (rating : Z)
    (comment : string) (reviews : list Review.t)
  : outcome string * list Review.t :=
  if (rating <? 1) || (rating >? 5)
  then (Raise (HTTPException 400 "Rating must be 1-5"), reviews)
  else (Return (str new_id),
        reviews ++ [Review.mk new_id workshop_slug name rating comment]).

(** The bound that the schema [Review] puts on [rating]:
    [Field(..., ge=1, le=5)]. *)
Definition Review_rating_ok (rating : Z) : Prop := 1 <= rating <= 5.

(** ** [serialize]

    A document is a Python dict: the list of its items in insertion order.
    [isoformat] stands for [datetime.isoformat], and [repr] for the text that
    [str] gives for floats, datetimes and lists; both belong to the Python
    library and are arguments here. *)

Inductive value : Set :=
| VNone
| VBool (b : bool)
| VInt (z : Z)
| VFloat (f : float)
| VStr (s : string)
| VOid (o : ObjectId)
| VDatetime (t : datetime)
| VList (l : list string).

Definition dict : Set := list (string * value).

(** [d.get(k)] *)
Fixpoint dict_get (k : string) (d : dict) : option value :=
  match d with
  | [] => None
  | (k', v) :: rest => if (k' =? k)%string then Some v else dict_get k rest
  end.

(** [d[k] = v]: an existing key keeps its place, a new key goes last. *)
Fixpoint dict_set (k : string) (v : value) (d : dict) : dict :=
  match d with
  | [] => [(k, v)]
  | (k', v') :: rest =>
      if (k' =? k)%string then (k, v) :: rest else (k', v') :: dict_set k v rest
  end.

(** [del d[k]] *)
Definition dict_del (k : string) (d : dict) : dict :=
  filter (fun kv => negb (fst kv =? k)%string) d.

(** The truth value of a Python value, as [if _id:] takes it. *)
Definition truthy (v : value) : bool :=
  match v with
  | VNone => false
  | VBool b => b
  | VInt z => negb (z =? 0)
  | VFloat f => negb (PrimFloat.eqb f 0%float)
  | VStr s => negb (s =? "")%string
  | VOid _ => true
  | VDatetime _ => true
  | VList l => match l with [] => false | _ :: _ => true end
  end.

Definition py_str (repr : value -> string) (v : value) : string :=
  match v with
  | VNone => "None"
  | VBool true => "True"
  | VBool false => "False"
  | VInt z => str_int z
  | VStr s => s
  | VOid o => str o
  | VFloat _ | VDatetime _ | VList _ => repr v
  end.

(** The loop body [if isinstance(v, datetime): d[k] = v.isoformat()]. *)
Definition iso_item (isoformat : datetime -> string) (kv : string * value)
  : string * value :=
  match snd kv with
  | VDatetime t => (fst kv, VStr (isoformat t))
  | _ => kv
  end.

Definition serialize (isoformat : datetime -> string) (repr : value -> string)
    (doc : dict) : dict :=
  match doc with
  | [] => doc
  | _ :: _ =>
      let d := doc in
      let d :=
        match dict_get "_id" d with
        | Some _id =>
            if truthy _id
            then dict_del "_id" (dict_set "id" (VStr (py_str repr _id)) d)
            else d
        | None => d
        end in
      map (iso_item isoformat) d
  end.

(** A value as it leaves [serialize]: a datetime as its ISO text, any other
    value as it is. *)
Definition iso_value (isoformat : datetime -> string) (v : value) : value :=
  match v with
  | VDatetime t => VStr (isoformat t)
  | _ => v
  end.

(** A session as the store holds it. *)
Definition session_doc (s : Session.t) : dict :=
  [ ("_id", VOid (Session._id s));
    ("workshop_slug", VStr (Session.workshop_slug s));
    ("start_time", VDatetime (Session.start_time s));
    ("end_time", VDatetime (Session.end_time s));
    ("capacity", VInt (Session.capacity s)) ].

(** ** Sequences of requests *)

Inductive request_to : Set :=
| CreateBooking (new_id : ObjectId) (payload : BookingRequest.t)
| ConfirmPayment (payload : PaymentConfirmRequest.t)
| SendReminders (now : datetime)
| NextSession (now : datetime)
| GetBooking (booking_id : string)
| InitiatePayment (booking_id : string)
| GetWorkshop (now : datetime) (slug : string)
| SessionsForWorkshop (now : datetime) (workshop : string).

(** The world after one request has been served, whatever its outcome. *)
Definition serve (r : request_to) (w : World) : World :=
  match r with
  | CreateBooking new_id payload => snd (create_booking new_id payload w)
  | ConfirmPayment payload => snd (confirm_payment payload w)
  | SendReminders now => snd (send_reminders now w)
  | NextSession now => snd (next_session now w)
  | GetBooking booking_id => snd (get_booking booking_id w)
  | InitiatePayment booking_id => snd (initiate_payment booking_id w)
  | GetWorkshop now slug => snd (get_workshop now slug w)
  | SessionsForWorkshop now workshop => snd (sessions_for_workshop now workshop w)
  end.

(** The world after the requests have been served one after the other. *)
Definition serve_all (rs : list request_to) (w : World) : World :=
  fold_left (fun w r => serve r w) rs w.

(** Sessions in ascending order of start time. *)
Definition starts_no_later (a b : Session.t) : Prop :=
  Session.start_time a <= Session.start_time b.

(** The ids that a fresh store hands out in the examples: the number [k] in
    the last two digits. *)
Definition nibble_of (n : nat) : nibble :=
  match n with
  | 0 => X0 | 1 => X1 | 2 => X2 | 3 => X3 | 4 => X4 | 5 => X5 | 6 => X6 | 7 => X7
  | 8 => X8 | 9 => X9 | 10 => Xa | 11 => Xb | 12 => Xc | 13 => Xd | 14 => Xe
  | _ => Xf
  end%nat.

Definition example_ids (k : nat) : ObjectId :=
  [X6;X5;X4;Xa;X1;Xb;X2;Xc;X3;Xd;X4;Xe;X5;Xf;X6;X0;X7;X1;X8;X2;X9;X3]
  ++ [nibble_of (k / 16); nibble_of (k mod 16)].

(** * Properties *)

(** ** Identifiers *)

Lemma unhex_hex (n : nibble) : unhex (hex n) = Some n.
Proof. destruct n; reflexivity. Qed.

Lemma isspace_hex (n : nibble) : isspace (hex n) = false.
Proof. destruct n; reflexivity. Qed.

Lemma fromhex_hexlify (n : nat) :
  forall o : list nibble,
    List.length o = (2 * n)%nat -> fromhex (hexlify o) = Some o.
Proof.
  induction n as [|n IH]; intros o H.
  - destruct o; [reflexivity|discriminate H].
  - destruct o as [|a [|b o]]; try (simpl in H; lia).
    cbn [hexlify fromhex]. rewrite isspace_hex, !unhex_hex, IH; [reflexivity|].
    simpl in H. lia.
Qed.

Lemma length_hexlify (o : list nibble) :
  String.length (hexlify o) = List.length o.
Proof. induction o; simpl; congruence. Qed.

(** Rendering an id and reading it back gives the same id. *)
Lemma ObjectId_new_str (o : ObjectId) :
  List.length o = 24%nat -> ObjectId_new (str o) = Some o.
Proof.
  intros H. unfold ObjectId_new, str.
  rewrite length_hexlify, H. simpl. apply (fromhex_hexlify 12). exact H.
Qed.

Lemma ObjectId_eqb_eq (a b : ObjectId) : ObjectId_eqb a b = true <-> a = b.
Proof.
  unfold ObjectId_eqb. destruct (list_eq_dec nibble_eq_dec a b); split;
    intros; congruence.
Qed.

Lemma ObjectId_eqb_refl (a : ObjectId) : ObjectId_eqb a a = true.
Proof. apply ObjectId_eqb_eq. reflexivity. Qed.

(** ** The aggregation *)

Lemma sum_app (l1 l2 : list Z) : sum (l1 ++ l2) = sum l1 + sum l2.
Proof. induction l1; simpl; lia. Qed.

Lemma sum_match_stage (sid : string) (bs : list Booking.t) :
  sum (map Booking.seats (filter (match_stage sid) bs)) = seats_held sid bs.
Proof.
  induction bs as [|b bs IH]; simpl; [reflexivity|].
  unfold match_stage at 1, status_in_pending_confirmed.
  destruct (string_dec (Booking.session_id b) sid) as [e|n].
  - apply String.eqb_eq in e. rewrite e.
    destruct (Booking.status b); simpl; rewrite ?IH; reflexivity.
  - apply String.eqb_neq in n. rewrite n. simpl. rewrite IH.
    destruct (Booking.status b); reflexivity.
Qed.

(** What the handlers read off the aggregation is the sum of the seats held
    under the id string. *)
Lemma next_seats_aggregate (sid : string) (bs : list Booking.t) :
  next_seats (group_stage (filter (match_stage sid) bs)) = seats_held sid bs.
Proof.
  rewrite <- sum_match_stage.
  destruct (filter (match_stage sid) bs); reflexivity.
Qed.

Lemma seats_held_app (sid : string) (l1 l2 : list Booking.t) :
  seats_held sid (l1 ++ l2) = seats_held sid l1 + seats_held sid l2.
Proof.
  rewrite <- !sum_match_stage, filter_app, map_app. apply sum_app.
Qed.

(** ** [create_booking], step by step *)

Lemma create_booking_eq (new_id : ObjectId) (payload : BookingRequest.t) (w0 : World) :
  create_booking new_id payload w0 =
  let d := db w0 in
  let after cs := mkWorld d (calls w0 ++ cs) in
  match lookup_workshop (BookingRequest.workshop_slug payload) d with
  | None =>
      (Raise (HTTPException 404 "Workshop not found"), after [FindOne c_workshop])
  | Some w =>
  match ObjectId_new (BookingRequest.session_id payload) with
  | None => (Raise (HTTPException 400 "Invalid id"), after [FindOne c_workshop])
  | Some i =>
  match lookup_session i d with
  | None =>
      (Raise (HTTPException 400 "Invalid session"),
       after [FindOne c_workshop; FindOne c_session])
  | Some s =>
  if negb (Session.workshop_slug s =? BookingRequest.workshop_slug payload)%string
  then (Raise (HTTPException 400 "Invalid session"),
        after [FindOne c_workshop; FindOne c_session])
  else
  let available :=
    Session.capacity s - seats_held (BookingRequest.session_id payload) (booking d) in
  if BookingRequest.seats payload >? available
  then (Raise (HTTPException 400 ("Only " ++ str_int available ++ " seats left")%string),
        after [FindOne c_workshop; FindOne c_session; Aggregate c_booking])
  else
  match float_of_int (BookingRequest.seats payload) with
  | None =>
      (Raise (PyError "OverflowError"),
       after [FindOne c_workshop; FindOne c_session; Aggregate c_booking])
  | Some y =>
      let amount := PrimFloat.mul (float_price w) y in
      (Return (BookingResponse.mk (str new_id) amount "INR"),
       mkWorld
         (mkStore (workshop d) (session d)
            (booking d ++ [new_booking new_id payload amount])
            (email d ++ [booking_created payload (str new_id)]))
         (calls w0 ++ [FindOne c_workshop; FindOne c_session; Aggregate c_booking;
                       InsertOne c_booking; InsertOne c_email]))
  end end end end.
Proof.
  unfold create_booking, lookup_workshop, lookup_session, bind, find_one_workshop,
    find_one_session, aggregate_booked, oid, mul_float_int, create_document_booking,
    create_document_email, query, command, ret, raise, log.
  cbn [db calls fst snd].
  destruct (find _ (workshop (db w0))) as [w|]; [|reflexivity].
  destruct (ObjectId_new _) as [i|]; [|reflexivity].
  cbn [db calls].
  destruct (find _ (session (db w0))) as [s|];
    [|rewrite <- app_assoc; reflexivity].
  destruct (negb _); [rewrite <- app_assoc; reflexivity|].
  cbn [db calls]. rewrite next_seats_aggregate.
  destruct (_ >? _); [rewrite <- !app_assoc; reflexivity|].
  destruct (float_of_int _); cbn [db calls workshop session booking email];
    rewrite <- !app_assoc; reflexivity.
Qed.

Ltac booking_cases :=
  rewrite create_booking_eq; cbv zeta;
  repeat match goal with
  | |- context [match ?x with _ => _ end] =>
      let E := fresh "E" in destruct x eqn:E
  end.

(** C10: whenever [create_booking] fails, whatever the error (unknown
    workshop, malformed session id, nonexistent or mismatched session,
    capacity exceeded, or a seat count too large to multiply), the store is
    left unchanged: no booking and no notification log entry is created, and
    no insert or update call reaches the store. *)
Theorem create_booking_failure_leaves_store
    (new_id : ObjectId) (payload : BookingRequest.t) (w0 w1 : World) (e : exn) :
  create_booking new_id payload w0 = (Raise e, w1) ->
  db w1 = db w0 /\
  exists cs, calls w1 = calls w0 ++ cs /\
    forall c, ~ In (InsertOne c) cs /\ ~ In (UpdateOne c) cs.
Proof.
  booking_cases; intros H; inversion H; subst; clear H; cbn [db calls];
    (split; [reflexivity|]);
    eexists; (split; [reflexivity|]);
    intros c; split; cbn [In]; intros F;
    repeat (destruct F as [F|F]; [discriminate F|]); exact F.
Qed.

Lemma create_booking_failure_leaves_store_witness :
  create_booking id_b (request "pottery-session-1" 2) seeded
  = (Raise (HTTPException 400 "Invalid id"),
     mkWorld (db seeded) [FindOne c_workshop])
  /\ db (mkWorld (db seeded) [FindOne c_workshop]) = db seeded.
Proof.
  split; [reflexivity|].
  apply (create_booking_failure_leaves_store id_b
           (request "pottery-session-1" 2) seeded
           (mkWorld (db seeded) [FindOne c_workshop])
           (HTTPException 400 "Invalid id")).
  reflexivity.
Defined.

(** C4: a successful [create_booking] appends one booking, with the fields
    of the request, with status [pending_payment] and with amount the
    workshop's price (0 when the workshop has none) times the requested
    seats, the seats being taken as the nearest float; it appends exactly one
    notification log entry, of type "booking_created", addressed to the
    customer; and it returns the id of the new booking together with that
    amount. *)
Theorem create_booking_success
    (new_id : ObjectId) (payload : BookingRequest.t) (w0 w1 : World)
    (r : BookingResponse.t) :
  create_booking new_id payload w0 = (Return r, w1) ->
  exists w b e,
    In w (workshop (db w0)) /\
    Workshop.slug w = BookingRequest.workshop_slug payload /\
    lookup_workshop (BookingRequest.workshop_slug payload) (db w0) = Some w /\
    booking (db w1) = booking (db w0) ++ [b] /\
    Booking._id b = new_id /\
    Booking.workshop_slug b = BookingRequest.workshop_slug payload /\
    Booking.session_id b = BookingRequest.session_id payload /\
    Booking.customer_name b = BookingRequest.customer_name payload /\
    Booking.customer_email b = BookingRequest.customer_email payload /\
    Booking.customer_phone b = BookingRequest.customer_phone payload /\
    Booking.seats b = BookingRequest.seats payload /\
    Booking.status b = pending_payment /\
    Booking.payment_reference b = None /\
    Z.abs (BookingRequest.seats payload) < 2 ^ 1024 - 2 ^ 970 /\
    Booking.amount b
    = PrimFloat.mul
        match Workshop.price w with
        | Some price => price
        | None => 0%float
        end
        (SF2Prim (binary_normalize prec emax (BookingRequest.seats payload) 0 false)) /\
    email (db w1) = email (db w0) ++ [e] /\
    Email.type e = "booking_created" /\
    Email.to e = BookingRequest.customer_email payload /\
    Email.booking_id e = str new_id /\
    BookingResponse.booking_id r = str new_id /\
    BookingResponse.amount r = Booking.amount b /\
    BookingResponse.currency r = "INR" /\
    workshop (db w1) = workshop (db w0) /\
    session (db w1) = session (db w0).
Proof.
  rewrite create_booking_eq. cbv zeta.
  destruct (lookup_workshop _ _) as [w|] eqn:Ew; [|discriminate].
  destruct (ObjectId_new _) as [i|]; [|discriminate].
  destruct (lookup_session _ _) as [s|]; [|discriminate].
  destruct (negb _); [discriminate|].
  destruct (_ >? _); [discriminate|].
  unfold float_of_int.
  destruct (Z.ltb_spec (Z.abs (BookingRequest.seats payload)) (2 ^ 1024 - 2 ^ 970))
    as [Hbound|_]; [|discriminate].
  intros H. inversion H; subst; clear H.
  cbn [db booking email workshop session].
  exists w. do 2 eexists.
  unfold lookup_workshop in Ew. destruct (find_some _ _ Ew) as [Hin Hslug].
  apply String.eqb_eq in Hslug.
  split; [exact Hin|]. split; [exact Hslug|]. split; [reflexivity|].
  split; [reflexivity|].
  cbn [new_booking booking_created Booking._id Booking.workshop_slug
         Booking.session_id Booking.customer_name Booking.customer_email
         Booking.customer_phone Booking.seats Booking.status
         Booking.payment_reference Booking.amount Email.type Email.to
         Email.booking_id BookingResponse.booking_id BookingResponse.amount
         BookingResponse.currency].
  repeat split; try reflexivity. exact Hbound.
Qed.

Lemma create_booking_success_witness :
  exists r w1,
    create_booking id_b (request (str id_a) 3) seeded = (Return r, w1) /\
    BookingResponse.amount r = 7497%float /\
    List.length (booking (db w1)) = 1%nat /\
    List.length (email (db w1)) = 1%nat.
Proof.
  destruct (create_booking id_b (request (str id_a) 3) seeded) as [o w1] eqn:E.
  destruct o as [r|x]; [|vm_compute in E; discriminate E].
  exists r, w1. split; [reflexivity|].
  destruct (create_booking_success id_b (request (str id_a) 3) seeded w1 r E)
    as (w & b & e & _ & _ & Hw & Hb & _ & _ & _ & _ & _ & _ & _ & _ & _ & _
        & Ha & He & _ & _ & _ & _ & Hr & _).
  vm_compute in Hw. inversion Hw; subst w.
  rewrite Hr, Ha, Hb, He. repeat split; reflexivity.
Defined.

(** C7: [create_booking] fails with NotFound (404) whenever the workshop
    slug matches no workshop.  When the workshop exists, it fails with
    InvalidArgument (400) whenever the session id matches no session (no
    session carries the id it denotes, which includes an id that denotes
    nothing), and whenever the session found belongs to another workshop.
    In each of these cases no aggregation reaches the store: the
    availability is not computed. *)
Theorem create_booking_rejections
    (new_id : ObjectId) (payload : BookingRequest.t) (w0 : World) :
  let slug := BookingRequest.workshop_slug payload in
  let sid := BookingRequest.session_id payload in
  (lookup_workshop slug (db w0) = None ->
   exists e w1 cs,
     create_booking new_id payload w0 = (Raise e, w1) /\ NotFound e /\
     calls w1 = calls w0 ++ cs /\ forall c, ~ In (Aggregate c) cs)
  /\
  (lookup_workshop slug (db w0) <> None ->
   (forall s, In s (session (db w0)) -> ObjectId_new sid <> Some (Session._id s))
   \/ (exists i s, ObjectId_new sid = Some i /\ lookup_session i (db w0) = Some s /\
                   Session.workshop_slug s <> slug) ->
   exists e w1 cs,
     create_booking new_id payload w0 = (Raise e, w1) /\ InvalidArgument e /\
     calls w1 = calls w0 ++ cs /\ forall c, ~ In (Aggregate c) cs).
Proof.
  cbv zeta. split.
  - intros Hw. rewrite create_booking_eq. cbv zeta. rewrite Hw.
    do 3 eexists. split; [reflexivity|]. split; [eexists; reflexivity|].
    split; [reflexivity|].
    intros c [F|[]]; discriminate F.
  - intros Hw Hs. rewrite create_booking_eq. cbv zeta.
    destruct (lookup_workshop _ _) as [w|]; [clear Hw|congruence].
    assert (no_agg1 : forall c, ~ In (Aggregate c) [FindOne c_workshop])
      by (intros c [F|[]]; discriminate F).
    assert (no_agg2 : forall c, ~ In (Aggregate c) [FindOne c_workshop; FindOne c_session])
      by (intros c [F|[F|[]]]; discriminate F).
    destruct (ObjectId_new _) as [i|] eqn:Ei.
    + destruct (lookup_session i (db w0)) as [s|] eqn:Es.
      * assert (Hne : (Session.workshop_slug s
                        =? BookingRequest.workshop_slug payload)%string = false).
        { destruct Hs as [Hs|(i' & s' & Hi' & Hs' & Hne)].
          - exfalso. unfold lookup_session in Es.
            destruct (find_some _ _ Es) as [Hin Heq].
            apply ObjectId_eqb_eq in Heq. apply (Hs s Hin). congruence.
          - inversion Hi'; subst i'. rewrite Es in Hs'. inversion Hs'; subst s'.
            now apply String.eqb_neq. }
        rewrite Hne. cbn [negb].
        do 3 eexists. split; [reflexivity|]. split; [eexists; reflexivity|].
        split; [reflexivity|exact no_agg2].
      * do 3 eexists. split; [reflexivity|]. split; [eexists; reflexivity|].
        split; [reflexivity|exact no_agg2].
    + do 3 eexists. split; [reflexivity|]. split; [eexists; reflexivity|].
      split; [reflexivity|exact no_agg1].
Qed.

Lemma create_booking_rejections_witness :
  (lookup_workshop "weaving" (db seeded) = None /\
   exists e w1 cs,
     create_booking id_b (BookingRequest.mk "weaving" (str id_a) "Asha"
                            "asha@example.com" None 1) seeded = (Raise e, w1) /\
     NotFound e /\
     calls w1 = calls seeded ++ cs /\ forall c, ~ In (Aggregate c) cs)
  /\
  (lookup_workshop "pottery" (db seeded) <> None /\
   (forall s, In s (session (db seeded)) ->
              ObjectId_new (str id_c) <> Some (Session._id s)) /\
   exists e w1 cs,
     create_booking id_b (request (str id_c) 1) seeded = (Raise e, w1) /\
     InvalidArgument e /\
     calls w1 = calls seeded ++ cs /\ forall c, ~ In (Aggregate c) cs).
Proof.
  split.
  - split; [reflexivity|].
    apply (create_booking_rejections id_b
             (BookingRequest.mk "weaving" (str id_a) "Asha" "asha@example.com" None 1)
             seeded).
    reflexivity.
  - assert (Hw : lookup_workshop "pottery" (db seeded) <> None)
      by (vm_compute; discriminate).
    assert (Hs : forall s, In s (session (db seeded)) ->
                           ObjectId_new (str id_c) <> Some (Session._id s)).
    { intros s [<-|[]]. vm_compute. discriminate. }
    split; [exact Hw|]. split; [exact Hs|].
    apply (create_booking_rejections id_b (request (str id_c) 1) seeded).
    + exact Hw.
    + left. exact Hs.
Defined.

(** The gate, for a request that names an existing workshop and one of its
    sessions. *)
Lemma create_booking_valid_eq
    (new_id : ObjectId) (payload : BookingRequest.t) (w0 : World)
    (w : Workshop.t) (s : Session.t) :
  valid_pair payload (db w0) w s ->
  create_booking new_id payload w0 =
  let available := availability payload (db w0) s in
  if BookingRequest.seats payload >? available
  then (Raise (HTTPException 400 ("Only " ++ str_int available ++ " seats left")%string),
        mkWorld (db w0)
          (calls w0 ++ [FindOne c_workshop; FindOne c_session; Aggregate c_booking]))
  else
  match float_of_int (BookingRequest.seats payload) with
  | None =>
      (Raise (PyError "OverflowError"),
       mkWorld (db w0)
         (calls w0 ++ [FindOne c_workshop; FindOne c_session; Aggregate c_booking]))
  | Some y =>
      let amount := PrimFloat.mul (float_price w) y in
      (Return (BookingResponse.mk (str new_id) amount "INR"),
       mkWorld
         (mkStore (workshop (db w0)) (session (db w0))
            (booking (db w0) ++ [new_booking new_id payload amount])
            (email (db w0) ++ [booking_created payload (str new_id)]))
         (calls w0 ++ [FindOne c_workshop; FindOne c_session; Aggregate c_booking;
                       InsertOne c_booking; InsertOne c_email]))
  end.
Proof.
  intros (Hw & i & Hi & Hs & Hslug).
  rewrite create_booking_eq. cbv zeta. rewrite Hw, Hi, Hs.
  apply String.eqb_eq in Hslug. rewrite Hslug. reflexivity.
Qed.


Lemma seats_held_new_booking (sid : string) (new_id : ObjectId)
    (payload : BookingRequest.t) (amount : float) :
  BookingRequest.session_id payload = sid ->
  seats_held sid [new_booking new_id payload amount] = BookingRequest.seats payload.
Proof.
  intros <-. simpl.
  destruct (string_dec _ _) as [_|n]; [lia|congruence].
Qed.




(** C9 (fails on the code): the schema [Booking] bounds [seats] by 1 and 10,
    but [BookingRequest] carries no bound and [create_booking] inserts a
    plain document.  On the seeded store a request for 0 seats and a request
    for -3 seats each persist a booking, and on a session of capacity 20 a
    request for 12 seats persists one. *)
Theorem create_booking_persists_seats_out_of_range :
  (exists r w1 b,
      create_booking id_b (request sid_lower 0) seeded = (Return r, w1) /\
      booking (db w1) = [b] /\ Booking.seats b = 0) /\
  (exists r w1 b,
      create_booking id_b (request sid_lower (-3)) seeded = (Return r, w1) /\
      booking (db w1) = [b] /\ Booking.seats b = -3 /\
      Booking.amount b = (-7497)%float) /\
  (exists r w1 b,
      create_booking id_b (request sid_lower 12) roomy = (Return r, w1) /\
      booking (db w1) = [b] /\ Booking.seats b = 12).
Proof.
  repeat split; do 3 eexists; (split; [vm_compute; reflexivity|]);
    repeat split; reflexivity.
Qed.

(** After a successful [create_booking], the seats held under the id string
    of the request do not exceed the capacity of the session it names, and
    the seats held under any other id string are what they were. *)
Lemma create_booking_within_capacity_per_id_string
    (new_id : ObjectId) (payload : BookingRequest.t) (w0 w1 : World)
    (r : BookingResponse.t) (w : Workshop.t) (s : Session.t) :
  valid_pair payload (db w0) w s ->
  create_booking new_id payload w0 = (Return r, w1) ->
  seats_held (BookingRequest.session_id payload) (booking (db w1))
  <= Session.capacity s /\
  forall sid, sid <> BookingRequest.session_id payload ->
    seats_held sid (booking (db w1)) = seats_held sid (booking (db w0)).
Proof.
  intros Hv. rewrite (create_booking_valid_eq new_id payload w0 w s Hv). cbv zeta.
  destruct (Z.gtb_spec (BookingRequest.seats payload)
              (availability payload (db w0) s)) as [|Hle]; [discriminate|].
  destruct (float_of_int _) as [y|]; [|discriminate].
  intros H. inversion H; subst; clear H. cbn [db booking].
  split.
  - rewrite seats_held_app, seats_held_new_booking by reflexivity.
    unfold availability in Hle. lia.
  - intros sid Hne. rewrite seats_held_app. simpl.
    destruct (string_dec _ _) as [e|_]; [congruence|lia].
Qed.

(** C1 (fails on the code): the gate sums the bookings filed under the id
    string of the request, and an [ObjectId] has several spellings.  On the
    seeded store two requests for 10 seats, one spelling the id of the
    capacity-10 pottery session in lower case and one in upper case, both
    succeed, one after the other; both bookings hold their seats and refer to
    that session, which [get_booking] attaches to each of them, so that 20
    seats are sold against a capacity of 10. *)
Theorem create_booking_oversells_through_id_spelling :
  exists r1 w1 r2 w2 b1 b2 v1 v2 w3 w4,
    create_booking id_b (request sid_lower 10) seeded = (Return r1, w1) /\
    create_booking id_c (request sid_upper 10) w1 = (Return r2, w2) /\
    booking (db w2) = [b1; b2] /\
    Booking.status b1 = pending_payment /\ Booking.status b2 = pending_payment /\
    get_booking (BookingResponse.booking_id r1) w2 = (Return v1, w3) /\
    get_booking (BookingResponse.booking_id r2) w3 = (Return v2, w4) /\
    BookingView.data v1 = b1 /\ BookingView.session v1 = Some pottery_session /\
    BookingView.data v2 = b2 /\ BookingView.session v2 = Some pottery_session /\
    seats_sold pottery_session (booking (db w2)) = 20 /\
    Session.capacity pottery_session = 10.
Proof.
  do 10 eexists.
  split; [vm_compute; reflexivity|].
  split; [vm_compute; reflexivity|].
  split; [reflexivity|].
  split; [reflexivity|]. split; [reflexivity|].
  split; [vm_compute; reflexivity|].
  split; [vm_compute; reflexivity|].
  repeat split; reflexivity.
Qed.

(** ** [next_session] *)

Lemma insert_by_start_time_head (a : Session.t) (l : list Session.t) :
  exists x r, insert_by_start_time a l = x :: r /\
    (x = a \/ exists r', l = x :: r') /\
    Session.start_time x <= Session.start_time a /\
    (forall y r', l = y :: r' -> Session.start_time x <= Session.start_time y).
Proof.
  destruct l as [|y l]; simpl.
  - exists a, []. repeat split; [now left|lia|intros; discriminate].
  - destruct (Z.leb_spec (Session.start_time a) (Session.start_time y)).
    + exists a, (y :: l). repeat split; [now left|lia|].
      intros y' r' E. inversion E; subst. lia.
    + exists y, (insert_by_start_time a l). repeat split; [right; eauto|lia|].
      intros y' r' E. inversion E; subst. lia.
Qed.

(** The first session of the sorted list is a session of the list, and none
    of the list starts earlier. *)
Lemma sort_by_start_time_head (l : list Session.t) :
  match sort_by_start_time l with
  | [] => l = []
  | x :: _ =>
      In x l /\ forall y, In y l -> Session.start_time x <= Session.start_time y
  end.
Proof.
  induction l as [|a l IH]; [reflexivity|].
  change (sort_by_start_time (a :: l))
    with (insert_by_start_time a (sort_by_start_time l)).
  destruct (insert_by_start_time_head a (sort_by_start_time l))
    as (x & r & -> & Hx & Hxa & Hmin).
  destruct (sort_by_start_time l) as [|z q] eqn:E.
  - subst l. destruct Hx as [->|(r' & F)]; [|discriminate].
    split; [now left|]. intros y [<-|[]]. lia.
  - destruct IH as [Hz Hzmin].
    specialize (Hmin z q eq_refl).
    split.
    + destruct Hx as [->|(r' & F)]; [now left|].
      inversion F; subst. now right.
    + intros y [<-|Hy]; [exact Hxa|].
      specialize (Hzmin y Hy). lia.
Qed.

Lemma next_session_eq (now : datetime) (w0 : World) :
  next_session now w0 =
  let d := db w0 in
  match sort_by_start_time (filter (fun s => now <=? Session.start_time s) (session d)) with
  | [] => (Return None, mkWorld d (calls w0 ++ [Find c_session]))
  | s :: _ =>
      (Return (Some (NextSession.mk s
          match lookup_workshop (Session.workshop_slug s) d with
          | Some w => Workshop.title w
          | None => Session.workshop_slug s
          end
          (Z.max 0 (Session.capacity s
                    - seats_held (str (Session._id s)) (booking d))))),
       mkWorld d (calls w0 ++ [Find c_session; FindOne c_workshop; Aggregate c_booking]))
  end.
Proof.
  unfold next_session, bind, find_sessions_from, find_one_workshop, aggregate_booked,
    lookup_workshop, query, ret, log.
  cbn [db calls]. cbv zeta.
  destruct (sort_by_start_time _) as [|s q]; [reflexivity|].
  cbn [firstn db calls]. rewrite next_seats_aggregate, <- !app_assoc. reflexivity.
Qed.

(** Availability, per id string: what each path computes is the capacity
    minus the sum of the seats of the bookings, in status [pending_payment]
    or [confirmed], filed under the id string that the path queries with,
    the rendered [_id] on the display path and the [session_id] of the
    request at the gate.  The display path ([next_session], which annotates
    the earliest upcoming session) floors it at 0.  The booking gate does
    not: a valid request is refused with "Only n seats left" exactly when its
    seats exceed the raw difference [n], whatever its sign, so that against a
    negative difference even a request for 0 seats is refused. *)
Theorem availability_display_and_gate :
  (forall now w0 w1 r,
      next_session now w0 = (Return (Some r), w1) ->
      let s := NextSession.item r in
      In s (session (db w0)) /\
      now <= Session.start_time s /\
      (forall s', In s' (session (db w0)) -> now <= Session.start_time s' ->
                  Session.start_time s <= Session.start_time s') /\
      NextSession.available_seats r
      = Z.max 0 (Session.capacity s - seats_held (str (Session._id s)) (booking (db w0))))
  /\
  (forall new_id payload w0 w s,
      valid_pair payload (db w0) w s ->
      let raw := Session.capacity s
                 - seats_held (BookingRequest.session_id payload) (booking (db w0)) in
      (BookingRequest.seats payload > raw <->
       exists w1, create_booking new_id payload w0
                  = (Raise (HTTPException 400
                              ("Only " ++ str_int raw ++ " seats left")%string), w1))
      /\
      (raw < 0 -> BookingRequest.seats payload = 0 ->
       exists e w1, create_booking new_id payload w0 = (Raise e, w1) /\
                    CapacityExceeded raw e)).
Proof.
  split.
  - intros now w0 w1 r. rewrite next_session_eq. cbv zeta.
    pose proof (sort_by_start_time_head
                  (filter (fun s => now <=? Session.start_time s) (session (db w0))))
      as Hhead.
    destruct (sort_by_start_time _) as [|s q]; [discriminate|].
    intros H. inversion H; subst; clear H. cbn [NextSession.item NextSession.available_seats].
    destruct Hhead as [Hin Hmin]. apply filter_In in Hin. destruct Hin as [Hin Hnow].
    apply Z.leb_le in Hnow.
    repeat split; [exact Hin|exact Hnow|].
    intros s' Hs' Hnow'. apply Hmin. apply filter_In. split; [exact Hs'|].
    now apply Z.leb_le.
  - intros new_id payload w0 w s Hv raw.
    rewrite (create_booking_valid_eq new_id payload w0 w s Hv). cbv zeta.
    fold (availability payload (db w0) s) in raw. subst raw.
    destruct (Z.gtb_spec (BookingRequest.seats payload)
                (availability payload (db w0) s)) as [Hgt|Hle].
    + split.
      * split; [intros _; eexists; reflexivity|intros _; lia].
      * intros _ _. do 2 eexists. split; reflexivity.
    + split.
      * split; [lia|].
        intros [w1 H]. destruct (float_of_int _); discriminate H.
      * intros Hneg H0. lia.
Qed.

Lemma availability_display_and_gate_witness :
  (exists r w1,
      next_session 0 overfull = (Return (Some r), w1) /\
      NextSession.item r = pottery_session /\
      NextSession.available_seats r = 0) /\
  valid_pair (request sid_lower 0) (db overfull) pottery pottery_session /\
  Session.capacity pottery_session - seats_held sid_lower (booking (db overfull)) = -2 /\
  (exists e w1,
      create_booking id_a (request sid_lower 0) overfull = (Raise e, w1) /\
      e = HTTPException 400 "Only -2 seats left").
Proof.
  destruct availability_display_and_gate as [display gate].
  assert (Hv : valid_pair (request sid_lower 0) (db overfull) pottery pottery_session).
  { split; [reflexivity|]. exists id_a. repeat split; reflexivity. }
  split; [|split; [exact Hv|split; [reflexivity|]]].
  - destruct (next_session 0 overfull) as [o w1] eqn:E.
    destruct o as [[r|]|x]; try (vm_compute in E; discriminate E).
    exists r, w1. split; [reflexivity|].
    destruct (display 0 overfull w1 r E) as (_ & _ & _ & Hav).
    assert (Hr : NextSession.item r = pottery_session)
      by (vm_compute in E; inversion E; reflexivity).
    split; [exact Hr|]. rewrite Hav, Hr. reflexivity.
  - destruct (gate id_a (request sid_lower 0) overfull pottery pottery_session Hv)
      as [_ Hneg].
    destruct Hneg as (e & w1 & Hrun & He); [reflexivity|reflexivity|].
    exists e, w1. split; [exact Hrun|]. exact He.
Defined.

(** C3 (fails on the code): the availability that the system uses leaves out
    the bookings filed under another spelling of the session id.  On the
    seeded store a request for 3 seats that spells the id of the capacity-10
    pottery session in upper case succeeds and is confirmed, so that 3 seats
    are sold for that session and 7 remain.  Yet [next_session] shows 10
    available seats for it, and the gate admits a request for 10 seats under
    the lower-case spelling, after which 13 seats are sold. *)
Theorem availability_misses_other_spelling :
  exists r1 w1 w2 shown w3 r4 w4,
    create_booking id_b (request sid_upper 3) seeded = (Return r1, w1) /\
    confirm_payment
      (PaymentConfirmRequest.mk (BookingResponse.booking_id r1) "PAY_7") w1
    = (Return "confirmed", w2) /\
    Session.capacity pottery_session = 10 /\
    seats_sold pottery_session (booking (db w2)) = 3 /\
    next_session 0 w2 = (Return (Some shown), w3) /\
    NextSession.item shown = pottery_session /\
    NextSession.available_seats shown = 10 /\
    create_booking id_c (request sid_lower 10) w3 = (Return r4, w4) /\
    seats_sold pottery_session (booking (db w4)) = 13.
Proof.
  do 7 eexists.
  split; [vm_compute; reflexivity|].
  split; [vm_compute; reflexivity|].
  split; [reflexivity|]. split; [reflexivity|].
  split; [vm_compute; reflexivity|].
  split; [reflexivity|]. split; [reflexivity|].
  split; [vm_compute; reflexivity|].
  reflexivity.
Qed.

(** ** [confirm_payment] *)

Lemma update_first_none {A} (p : A -> bool) (f : A -> A) (l : list A) :
  find p l = None -> update_first p f l = (l, 0).
Proof.
  induction l as [|x l IH]; simpl; [reflexivity|].
  destruct (p x); [discriminate|]. intros H. rewrite (IH H). reflexivity.
Qed.

Lemma update_first_some {A} (p : A -> bool) (f : A -> A) (l : list A) (x : A) :
  find p l = Some x ->
  exists l1 l2,
    l = l1 ++ x :: l2 /\ (forall y, In y l1 -> p y = false) /\
    update_first p f l = (l1 ++ f x :: l2, 1).
Proof.
  induction l as [|a l IH]; simpl; [discriminate|].
  destruct (p a) eqn:Ea.
  - intros H. inversion H; subst. exists [], l. repeat split.
    intros y [].
  - intros H. destruct (IH H) as (l1 & l2 & -> & Hl1 & ->).
    exists (a :: l1), l2. repeat split.
    intros y [<-|Hy]; [exact Ea|exact (Hl1 y Hy)].
Qed.

Lemma find_skip {A} (p : A -> bool) (l1 l2 : list A) :
  (forall y, In y l1 -> p y = false) -> find p (l1 ++ l2) = find p l2.
Proof.
  induction l1 as [|a l1 IH]; simpl; intros H; [reflexivity|].
  rewrite (H a (or_introl eq_refl)). apply IH. intros y Hy. apply H. now right.
Qed.

Lemma confirm_payment_eq (payload : PaymentConfirmRequest.t) (w0 : World) :
  confirm_payment payload w0 =
  let d := db w0 in
  let ref := PaymentConfirmRequest.payment_reference payload in
  let bid := PaymentConfirmRequest.booking_id payload in
  match ObjectId_new bid with
  | None => (Raise (HTTPException 400 "Invalid id"), w0)
  | Some i =>
      match lookup_booking i d with
      | None =>
          (Raise (HTTPException 404 "Booking not found"),
           mkWorld d (calls w0 ++ [UpdateOne c_booking]))
      | Some b =>
          (Return "confirmed",
           mkWorld
             (mkStore (workshop d) (session d)
                (fst (update_first (fun b => ObjectId_eqb (Booking._id b) i)
                        (set_confirmed ref) (booking d)))
                (email d ++
                   [Email.mk "booking_confirmed" (Booking.customer_email b)
                      "HANDIQ Booking Confirmed" bid (Some ref);
                    Email.mk "admin_new_booking" "admin@handiq.example"
                      "New HANDIQ Booking" bid None]))
             (calls w0 ++ [UpdateOne c_booking; FindOne c_booking;
                           InsertOne c_email; InsertOne c_email]))
      end
  end.
Proof.
  unfold confirm_payment, lookup_booking, bind, oid, update_one_confirmed,
    find_one_booking, create_document_email, query, command, ret, raise, log.
  cbv zeta.
  destruct (ObjectId_new _) as [i|]; [|reflexivity].
  destruct (find _ (booking (db w0))) as [b|] eqn:E.
  - destruct (update_first_some _ (set_confirmed
                 (PaymentConfirmRequest.payment_reference payload)) _ _ E)
      as (l1 & l2 & El & Hl1 & ->).
    cbn [db calls booking fst]. change (1 =? 0) with false. cbv beta iota.
    cbn [db calls booking].
    rewrite (find_skip _ l1 _ Hl1). cbn [find].
    change (Booking._id (set_confirmed _ b)) with (Booking._id b).
    destruct (find_some _ _ E) as [_ ->].
    cbn [db calls workshop session booking email Booking.customer_email set_confirmed].
    rewrite <- !app_assoc. reflexivity.
  - rewrite (update_first_none _ _ _ E). cbn [db calls].
    change (0 =? 0) with true. cbv iota.
    destruct w0 as [[ws ss bs es] cs]. reflexivity.
Qed.

(** C5, as stated, fails: an id that [ObjectId] does not accept matches no
    booking, and [confirm_payment] answers it with 400 "Invalid id", which is
    not NotFound. *)
Lemma confirm_payment_malformed_id_not_NotFound :
  (forall b, In b (booking (db lapsed)) ->
             ObjectId_new "pottery-booking-1" <> Some (Booking._id b)) /\
  confirm_payment (PaymentConfirmRequest.mk "pottery-booking-1" "PAY_7") lapsed
  = (Raise (HTTPException 400 "Invalid id"), lapsed) /\
  ~ NotFound (HTTPException 400 "Invalid id").
Proof.
  split; [|split].
  - intros b _. vm_compute. discriminate.
  - reflexivity.
  - intros [detail H]. discriminate H.
Qed.

(** C5, amended: [confirm_payment] rejects an id that [ObjectId] does not
    accept with 400 "Invalid id", before any call reaches the store.  For an
    id that it accepts, the call fails with NotFound (404) when no booking
    carries the id.  When one does, whatever its status, the call sets the
    status of that booking to [confirmed] and stores the payment reference,
    leaves its other fields and every other booking as they were, and appends
    exactly two notification log entries: "booking_confirmed" to the customer
    and "admin_new_booking" to the administrative address. *)
Theorem confirm_payment_spec (payload : PaymentConfirmRequest.t) (w0 : World) :
  let bid := PaymentConfirmRequest.booking_id payload in
  let ref := PaymentConfirmRequest.payment_reference payload in
  (ObjectId_new bid = None ->
   confirm_payment payload w0 = (Raise (HTTPException 400 "Invalid id"), w0))
  /\
  forall i, ObjectId_new bid = Some i ->
  (lookup_booking i (db w0) = None ->
   exists e w1,
     confirm_payment payload w0 = (Raise e, w1) /\ NotFound e /\ db w1 = db w0)
  /\
  (forall b, lookup_booking i (db w0) = Some b ->
   exists w1 l1 l2 b' e1 e2,
     confirm_payment payload w0 = (Return "confirmed", w1) /\
     booking (db w0) = l1 ++ b :: l2 /\
     (forall y, In y l1 -> Booking._id y <> i) /\
     booking (db w1) = l1 ++ b' :: l2 /\
     b' = set_confirmed ref b /\
     Booking.status b' = confirmed /\
     Booking.payment_reference b' = Some ref /\
     lookup_booking i (db w1) = Some b' /\
     email (db w1) = email (db w0) ++ [e1; e2] /\
     Email.type e1 = "booking_confirmed" /\
     Email.to e1 = Booking.customer_email b /\
     Email.type e2 = "admin_new_booking" /\
     Email.to e2 = "admin@handiq.example" /\
     Email.booking_id e1 = bid /\
     Email.booking_id e2 = bid /\
     workshop (db w1) = workshop (db w0) /\
     session (db w1) = session (db w0) /\
     Booking._id b' = Booking._id b /\
     Booking.workshop_slug b' = Booking.workshop_slug b /\
     Booking.session_id b' = Booking.session_id b /\
     Booking.customer_name b' = Booking.customer_name b /\
     Booking.customer_email b' = Booking.customer_email b /\
     Booking.customer_phone b' = Booking.customer_phone b /\
     Booking.seats b' = Booking.seats b /\
     Booking.amount b' = Booking.amount b).
Proof.
  cbv zeta. split.
  { intros Hbad. rewrite confirm_payment_eq. cbv zeta. rewrite Hbad. reflexivity. }
  intros i Hi. split.
  - intros Hnone. rewrite confirm_payment_eq. cbv zeta. rewrite Hi, Hnone.
    do 2 eexists. split; [reflexivity|]. split; [eexists; reflexivity|reflexivity].
  - intros b Hb. rewrite confirm_payment_eq. cbv zeta. rewrite Hi, Hb.
    unfold lookup_booking in Hb.
    destruct (update_first_some _
                (set_confirmed (PaymentConfirmRequest.payment_reference payload))
                _ _ Hb) as (l1 & l2 & El & Hl1 & Hup).
    rewrite Hup. cbn [fst db booking email workshop session].
    exists (mkWorld
              (mkStore (workshop (db w0)) (session (db w0))
                 (l1 ++ set_confirmed
                          (PaymentConfirmRequest.payment_reference payload) b :: l2)
                 (email (db w0) ++
                    [Email.mk "booking_confirmed" (Booking.customer_email b)
                       "HANDIQ Booking Confirmed"
                       (PaymentConfirmRequest.booking_id payload)
                       (Some (PaymentConfirmRequest.payment_reference payload));
                     Email.mk "admin_new_booking" "admin@handiq.example"
                       "New HANDIQ Booking"
                       (PaymentConfirmRequest.booking_id payload) None]))
              (calls w0 ++ [UpdateOne c_booking; FindOne c_booking;
                            InsertOne c_email; InsertOne c_email])).
    exists l1, l2. do 3 eexists.
    split; [reflexivity|]. split; [exact El|].
    split.
    { intros y Hy Heq. specialize (Hl1 y Hy). cbv beta in Hl1.
      rewrite Heq, ObjectId_eqb_refl in Hl1. discriminate Hl1. }
    cbn [db booking email workshop session].
    split; [reflexivity|]. split; [reflexivity|].
    split; [reflexivity|]. split; [reflexivity|].
    split.
    { unfold lookup_booking. cbn [db booking].
      rewrite (find_skip _ l1 _ Hl1). cbn [find].
      change (Booking._id (set_confirmed _ b)) with (Booking._id b).
      destruct (find_some _ _ Hb) as [_ ->]. reflexivity. }
    repeat split; reflexivity.
Qed.

Lemma confirm_payment_spec_witness :
  ObjectId_new (str id_b) = Some id_b /\
  lookup_booking id_b (db lapsed) = Some lapsed_booking /\
  Booking.status lapsed_booking = cancelled /\
  exists w1,
    confirm_payment (PaymentConfirmRequest.mk (str id_b) "PAY_7") lapsed
    = (Return "confirmed", w1) /\
    booking (db w1) = [set_confirmed "PAY_7" lapsed_booking] /\
    List.length (email (db w1)) = 2%nat.
Proof.
  split; [reflexivity|]. split; [reflexivity|]. split; [reflexivity|].
  destruct (confirm_payment_spec (PaymentConfirmRequest.mk (str id_b) "PAY_7")
              lapsed) as [_ accepted].
  destruct (accepted id_b eq_refl) as [_ found].
  destruct (found lapsed_booking eq_refl)
    as (w1 & l1 & l2 & b' & e1 & e2 & Hrun & _ & _ & _ & _ & _ & _ & _ & He & _).
  exists w1. split; [exact Hrun|].
  rewrite He. split; [|reflexivity].
  vm_compute in Hrun. inversion Hrun. reflexivity.
Defined.

(** ** [send_reminders] *)

Lemma with_email_nil (d : Store) : with_email d [] = d.
Proof. destruct d. unfold with_email. simpl. rewrite app_nil_r. reflexivity. Qed.

Lemma with_email_app (d : Store) (es1 es2 : list Email.t) :
  with_email (with_email d es1) es2 = with_email d (es1 ++ es2).
Proof. unfold with_email. simpl. rewrite <- app_assoc. reflexivity. Qed.

Lemma remind_bookings_eq (bookings : list Booking.t) :
  forall (count : Z) (w : World),
    remind_bookings bookings count w =
    (Return (count + Z.of_nat (List.length bookings)),
     mkWorld (with_email (db w) (map reminder bookings))
       (calls w ++ repeat (InsertOne c_email) (List.length bookings))).
Proof.
  induction bookings as [|b bs IH]; intros count w.
  - simpl. unfold ret. rewrite with_email_nil, app_nil_r, Z.add_0_r.
    destruct w. reflexivity.
  - cbn [remind_bookings]. unfold bind, create_document_email, command.
    rewrite IH. cbn [db calls].
    change (mkStore (workshop (db w)) (session (db w)) (booking (db w))
              (email (db w) ++ [reminder b]))
      with (with_email (db w) [reminder b]).
    rewrite with_email_app. cbn [map List.length repeat app].
    rewrite <- app_assoc. cbn [app].
    f_equal. f_equal. lia.
Qed.

Lemma remind_sessions_eq (sessions : list Session.t) :
  forall (count : Z) (w : World),
    let due :=
      flat_map
        (fun s => filter (on_session_with_status (str (Session._id s)) confirmed)
                    (booking (db w)))
        sessions in
    exists cs,
      remind_sessions sessions count w =
      (Return (count + Z.of_nat (List.length due)),
       mkWorld (with_email (db w) (map reminder due)) (calls w ++ cs))
      /\ forall c, In c cs -> c = Find c_booking \/ c = InsertOne c_email.
Proof.
  induction sessions as [|s ss IH]; intros count w; cbv zeta.
  - exists []. split; [|intros c []].
    simpl. unfold ret. rewrite with_email_nil, app_nil_r, Z.add_0_r.
    destruct w. reflexivity.
  - cbn [remind_sessions flat_map]. unfold bind at 1 2, find_bookings, query.
    rewrite remind_bookings_eq. cbn [db calls log].
    set (here := filter (on_session_with_status (str (Session._id s)) confirmed)
                   (booking (db w))).
    destruct (IH (count + Z.of_nat (List.length here))
                (mkWorld (with_email (db w) (map reminder here))
                   ((calls w ++ [Find c_booking])
                    ++ repeat (InsertOne c_email) (List.length here))))
      as (cs & -> & Hcs).
    cbn [db calls with_email booking].
    exists ([Find c_booking] ++ repeat (InsertOne c_email) (List.length here) ++ cs).
    split.
    + rewrite with_email_app, <- map_app, length_app, Nat2Z.inj_add.
      rewrite <- !app_assoc.
      f_equal. f_equal. lia.
    + intros c Hc. apply in_app_or in Hc. destruct Hc as [[<-|[]]|Hc]; [now left|].
      apply in_app_or in Hc. destruct Hc as [Hc|Hc]; [|exact (Hcs c Hc)].
      apply repeat_spec in Hc. now right.
Qed.

Lemma Status_beq_eq (a b : Status) : Status_beq a b = true <-> a = b.
Proof. destruct a, b; simpl; split; intros H; congruence. Qed.

(** Reminders, per id string: one run of [send_reminders] appends exactly one
    "reminder" entry for each confirmed booking filed under the rendered
    [_id] of each session that starts within the next 24 hours, and returns
    the number of entries appended.  A booking is due exactly when it is
    confirmed and filed under a session in the window, so a booking in any
    other status produces no entry: on a session in the window with one
    confirmed and one [pending_payment] booking the count is 1. *)
Theorem send_reminders_spec :
  (forall now w0,
      exists w1,
        send_reminders now w0
        = (Return (Z.of_nat (List.length (due_bookings now (db w0)))), w1) /\
        email (db w1) = email (db w0) ++ map reminder (due_bookings now (db w0)) /\
        booking (db w1) = booking (db w0) /\
        session (db w1) = session (db w0) /\
        workshop (db w1) = workshop (db w0))
  /\
  (forall b, Email.type (reminder b) = "reminder" /\
             Email.to (reminder b) = Booking.customer_email b /\
             Email.booking_id (reminder b) = str (Booking._id b))
  /\
  (forall now d b,
      In b (due_bookings now d) <->
      In b (booking d) /\ Booking.status b = confirmed /\
      exists s, In s (session d) /\
                now <= Session.start_time s <= now + 24 * 3600 * 1000000 /\
                Booking.session_id b = str (Session._id s))
  /\
  (exists w1 e,
      send_reminders 40000000000 overfull = (Return 1, w1) /\
      email (db w1) = [e] /\ Email.to e = "ravi@example.com").
Proof.
  split; [|split; [|split]].
  - intros now w0. unfold send_reminders, bind, find_sessions_between, query, log.
    cbv beta zeta iota.
    destruct (remind_sessions_eq
                (filter (in_window now (now + timedelta_hours 24)) (session (db w0)))
                0 (mkWorld (db w0) (calls w0 ++ [Find c_session])))
      as (cs & -> & _).
    cbn [db calls].
    eexists. split; [reflexivity|].
    cbn [db email booking session workshop with_email].
    repeat split; reflexivity.
  - intros b. repeat split; reflexivity.
  - intros now d b. unfold due_bookings. rewrite in_flat_map. split.
    + intros (s & Hs & Hb).
      apply filter_In in Hs. destruct Hs as [Hs Hw].
      apply filter_In in Hb. destruct Hb as [Hb Hst].
      apply andb_true_iff in Hw. destruct Hw as [Hlo Hhi].
      apply andb_true_iff in Hst. destruct Hst as [Hsid Hconf].
      apply Z.leb_le in Hlo. apply Z.leb_le in Hhi.
      apply String.eqb_eq in Hsid. apply Status_beq_eq in Hconf.
      split; [exact Hb|]. split; [exact Hconf|].
      exists s. repeat split; assumption.
    + intros (Hb & Hconf & s & Hs & [Hlo Hhi] & Hsid).
      exists s. split; apply filter_In; split; try assumption;
        apply andb_true_iff; split.
      * now apply Z.leb_le.
      * now apply Z.leb_le.
      * now apply String.eqb_eq.
      * now apply Status_beq_eq.
  - do 2 eexists. split; [vm_compute; reflexivity|].
    split; reflexivity.
Qed.

Lemma send_reminders_spec_witness :
  In (Booking.mk id_c "pottery" sid_lower "Ravi" "ravi@example.com" None 5
        12495%float confirmed (Some "PAY_1"))
     (due_bookings 40000000000 (db overfull))
  /\ List.length (due_bookings 40000000000 (db overfull)) = 1%nat
  /\ exists w1, send_reminders 40000000000 overfull = (Return 1, w1).
Proof.
  destruct send_reminders_spec as (run & _ & due & _).
  split; [|split; [reflexivity|]].
  - apply (due 40000000000 (db overfull)).
    split; [right; left; reflexivity|]. split; [reflexivity|].
    exists pottery_session. split; [left; reflexivity|].
    split; [vm_compute; split; discriminate|reflexivity].
  - destruct (run 40000000000 overfull) as (w1 & Hrun & _).
    exists w1. exact Hrun.
Defined.

(** C6 (fails on the code): [send_reminders] looks for the bookings filed
    under the rendered [_id] of a session, and so passes over a confirmed
    booking filed under another spelling of it.  On the seeded store a
    request that spells the id of the pottery session in upper case succeeds
    and is confirmed; [get_booking] attaches the pottery session to that
    confirmed booking, and the session starts within the 24 hours after the
    chosen time; yet [send_reminders] at that time returns 0 and appends no
    entry. *)
Theorem send_reminders_misses_other_spelling :
  exists r1 w1 w2 v w3 w4,
    create_booking id_b (request sid_upper 3) seeded = (Return r1, w1) /\
    confirm_payment
      (PaymentConfirmRequest.mk (BookingResponse.booking_id r1) "PAY_7") w1
    = (Return "confirmed", w2) /\
    get_booking (BookingResponse.booking_id r1) w2 = (Return v, w3) /\
    Booking.status (BookingView.data v) = confirmed /\
    BookingView.session v = Some pottery_session /\
    40000000000 <= Session.start_time pottery_session
                <= 40000000000 + 24 * 3600 * 1000000 /\
    send_reminders 40000000000 w3 = (Return 0, w4) /\
    email (db w4) = email (db w3).
Proof.
  do 6 eexists.
  split; [vm_compute; reflexivity|].
  split; [vm_compute; reflexivity|].
  split; [vm_compute; reflexivity|].
  split; [reflexivity|]. split; [reflexivity|].
  split; [vm_compute; split; discriminate|].
  split; [vm_compute; reflexivity|].
  reflexivity.
Qed.

(** ** Malformed identifiers *)

(** C8, as stated, fails: [create_booking] looks the workshop up before it
    parses the session id, so a find reaches the store although the id is
    malformed. *)
Lemma malformed_ids_not_always_rejected_first : ~ malformed_ids_rejected_first.
Proof.
  intros (Hcreate & _ & _).
  destruct (Hcreate id_b "pottery" "Asha" "asha@example.com" None 2
              "pottery-session-1" seeded eq_refl) as [e He].
  vm_compute in He. discriminate He.
Qed.

(** C8, amended: [get_booking] and [confirm_payment] reject a malformed
    booking id, one that [ObjectId] does not accept, with "Invalid id" before
    any call reaches the store.  [create_booking] looks the workshop up
    first: with a malformed session id exactly one call, a find on the
    workshop collection, reaches the store;
    the request then fails, with "Workshop not found" when the slug is
    unknown and with "Invalid id" otherwise, and the store content is
    unchanged. *)
Theorem malformed_ids_rejected :
  rejects_malformed_first get_booking
  /\
  (forall ref,
      rejects_malformed_first
        (fun bid => confirm_payment (PaymentConfirmRequest.mk bid ref)))
  /\
  (forall id_str w0,
      ObjectId_new id_str = None ->
      get_booking id_str w0 = (Raise (HTTPException 400 "Invalid id"), w0) /\
      forall ref,
        confirm_payment (PaymentConfirmRequest.mk id_str ref) w0
        = (Raise (HTTPException 400 "Invalid id"), w0))
  /\
  (forall new_id payload w0,
      ObjectId_new (BookingRequest.session_id payload) = None ->
      exists e,
        create_booking new_id payload w0
        = (Raise e, mkWorld (db w0) (calls w0 ++ [FindOne c_workshop])) /\
        (lookup_workshop (BookingRequest.workshop_slug payload) (db w0) = None ->
         e = HTTPException 404 "Workshop not found") /\
        (lookup_workshop (BookingRequest.workshop_slug payload) (db w0) <> None ->
         e = HTTPException 400 "Invalid id")).
Proof.
  assert (Hget : forall id_str w0, ObjectId_new id_str = None ->
            get_booking id_str w0 = (Raise (HTTPException 400 "Invalid id"), w0)).
  { intros id_str w0 H. unfold get_booking, bind, oid. rewrite H. reflexivity. }
  assert (Hconfirm : forall ref id_str w0, ObjectId_new id_str = None ->
            confirm_payment (PaymentConfirmRequest.mk id_str ref) w0
            = (Raise (HTTPException 400 "Invalid id"), w0)).
  { intros ref id_str w0 H. rewrite confirm_payment_eq. cbv zeta.
    cbn [PaymentConfirmRequest.booking_id]. rewrite H. reflexivity. }
  split; [|split; [|split]].
  - intros id_str w0 H. eexists. apply Hget, H.
  - intros ref id_str w0 H. eexists. apply Hconfirm, H.
  - intros id_str w0 H. split; [apply Hget, H|].
    intros ref. apply Hconfirm, H.
  - intros new_id payload w0 H. rewrite create_booking_eq. cbv zeta. rewrite H.
    destruct (lookup_workshop _ _) as [w|].
    + eexists. split; [reflexivity|]. split; [discriminate|reflexivity].
    + eexists. split; [reflexivity|]. split; [reflexivity|congruence].
Qed.

Lemma malformed_ids_rejected_witness :
  ObjectId_new "pottery-session-1" = None /\
  get_booking "pottery-session-1" seeded
  = (Raise (HTTPException 400 "Invalid id"), seeded) /\
  confirm_payment (PaymentConfirmRequest.mk "pottery-session-1" "PAY_7") seeded
  = (Raise (HTTPException 400 "Invalid id"), seeded) /\
  lookup_workshop "pottery" (db seeded) <> None /\
  create_booking id_b (request "pottery-session-1" 2) seeded
  = (Raise (HTTPException 400 "Invalid id"),
     mkWorld (db seeded) [FindOne c_workshop]).
Proof.
  destruct malformed_ids_rejected as (_ & _ & booking_id & session_id).
  split; [reflexivity|].
  destruct (booking_id "pottery-session-1" seeded eq_refl) as [Hget Hconfirm].
  split; [exact Hget|]. split; [exact (Hconfirm "PAY_7")|].
  assert (Hw : lookup_workshop "pottery" (db seeded) <> None)
    by (vm_compute; discriminate).
  split; [exact Hw|].
  destruct (session_id id_b (request "pottery-session-1" 2) seeded eq_refl)
    as (e & Hrun & _ & Hknown).
  rewrite Hrun, (Hknown Hw). reflexivity.
Defined.

(** * Further properties *)

(** ** Sorting by start time *)

Lemma insert_by_start_time_perm (a : Session.t) (l : list Session.t) :
  Permutation (insert_by_start_time a l) (a :: l).
Proof.
  induction l as [|x l IH]; simpl; [reflexivity|].
  destruct (_ <=? _); [reflexivity|].
  rewrite IH. apply perm_swap.
Qed.

Lemma sort_by_start_time_perm (l : list Session.t) :
  Permutation (sort_by_start_time l) l.
Proof.
  induction l as [|a l IH]; [reflexivity|].
  change (sort_by_start_time (a :: l))
    with (insert_by_start_time a (sort_by_start_time l)).
  rewrite insert_by_start_time_perm. now constructor.
Qed.

Lemma insert_by_start_time_sorted (a : Session.t) (l : list Session.t) :
  StronglySorted starts_no_later l ->
  StronglySorted starts_no_later (insert_by_start_time a l).
Proof.
  induction 1 as [|x l Hl IH Hx]; simpl.
  - repeat constructor.
  - destruct (Z.leb_spec (Session.start_time a) (Session.start_time x)) as [Hlt|Hge].
    + constructor; [now constructor|].
      constructor; [unfold starts_no_later; lia|].
      eapply Forall_impl; [|exact Hx].
      unfold starts_no_later. intros y Hy. lia.
    + constructor; [exact IH|].
      eapply Permutation_Forall;
        [symmetry; apply insert_by_start_time_perm|].
      constructor; [unfold starts_no_later; lia|exact Hx].
Qed.

Lemma sort_by_start_time_sorted (l : list Session.t) :
  StronglySorted starts_no_later (sort_by_start_time l).
Proof.
  induction l as [|a l IH]; [constructor|].
  apply insert_by_start_time_sorted, IH.
Qed.

Lemma StronglySorted_app_le {A} (R : A -> A -> Prop) (l1 l2 : list A) :
  StronglySorted R (l1 ++ l2) ->
  StronglySorted R l1 /\ forall x y, In x l1 -> In y l2 -> R x y.
Proof.
  induction l1 as [|a l1 IH]; simpl; intros H.
  - split; [constructor|intros x y []].
  - inversion H as [|? ? Hs Hall]; subst.
    destruct (IH Hs) as [Hs1 Hle].
    split.
    + constructor; [exact Hs1|].
      apply Forall_forall. intros x Hx.
      rewrite Forall_forall in Hall. apply Hall, in_or_app. now left.
    + intros x y [<-|Hx] Hy; [|now apply Hle].
      rewrite Forall_forall in Hall. apply Hall, in_or_app. now right.
Qed.

Lemma upcoming_of_spec (slug : string) (now : datetime) (s : Session.t) :
  upcoming_of slug now s = true <->
  Session.workshop_slug s = slug /\ now <= Session.start_time s.
Proof.
  unfold upcoming_of. rewrite andb_true_iff, String.eqb_eq, Z.leb_le. reflexivity.
Qed.

(** ** Catalog handlers *)

Lemma get_workshop_eq (now : datetime) (slug : string) (w0 : World) :
  get_workshop now slug w0 =
  match lookup_workshop slug (db w0) with
  | None =>
      (Raise (HTTPException 404 "Workshop not found"),
       mkWorld (db w0) (calls w0 ++ [FindOne c_workshop]))
  | Some w =>
      (Return (WorkshopView.mk w
         (firstn 10 (sort_by_start_time
                       (filter (upcoming_of slug now) (session (db w0)))))),
       mkWorld (db w0) (calls w0 ++ [FindOne c_workshop; Find c_session]))
  end.
Proof.
  unfold get_workshop, lookup_workshop, bind, find_one_workshop,
    find_workshop_sessions, query, ret, raise, log.
  cbn [db calls].
  destruct (find _ (workshop (db w0))); [|reflexivity].
  cbn [db calls]. rewrite <- app_assoc. reflexivity.
Qed.

(** [get_workshop] answers 404, after a single find, when no workshop has
    the slug.  Otherwise it returns the workshop with at most ten sessions:
    sessions of that workshop starting at [now] or later, in ascending order
    of start time, and the earliest ones, since an upcoming session of the
    workshop that is left out starts no earlier than any session returned;
    when the workshop has at most ten upcoming sessions all are returned. *)
Theorem get_workshop_spec (now : datetime) (slug : string) (w0 : World) :
  (lookup_workshop slug (db w0) = None ->
   get_workshop now slug w0
   = (Raise (HTTPException 404 "Workshop not found"),
      mkWorld (db w0) (calls w0 ++ [FindOne c_workshop])))
  /\
  (forall w, lookup_workshop slug (db w0) = Some w ->
   exists ss w1,
     get_workshop now slug w0 = (Return (WorkshopView.mk w ss), w1) /\
     Workshop.slug w = slug /\
     (List.length ss <= 10)%nat /\
     StronglySorted starts_no_later ss /\
     (forall s, In s ss ->
        In s (session (db w0)) /\ Session.workshop_slug s = slug /\
        now <= Session.start_time s) /\
     (forall s', In s' (session (db w0)) -> Session.workshop_slug s' = slug ->
        now <= Session.start_time s' -> ~ In s' ss ->
        forall s, In s ss -> Session.start_time s <= Session.start_time s') /\
     ((List.length (filter (upcoming_of slug now) (session (db w0))) <= 10)%nat ->
      Permutation ss (filter (upcoming_of slug now) (session (db w0))))).
Proof.
  rewrite get_workshop_eq. split.
  - intros ->. reflexivity.
  - intros w Hw. rewrite Hw.
    set (up := filter (upcoming_of slug now) (session (db w0))).
    pose proof (sort_by_start_time_perm up) as Hperm.
    pose proof (sort_by_start_time_sorted up) as Hsorted.
    rewrite <- (firstn_skipn 10 (sort_by_start_time up)) in Hsorted.
    apply StronglySorted_app_le in Hsorted. destruct Hsorted as [Hfirst Hle].
    do 2 eexists. split; [reflexivity|].
    split.
    { unfold lookup_workshop in Hw. apply find_some in Hw.
      now apply String.eqb_eq. }
    split; [apply firstn_le_length|]. split; [exact Hfirst|].
    split; [|split].
    + intros s Hs.
      assert (Hin : In s up).
      { eapply Permutation_in; [exact Hperm|].
        rewrite <- (firstn_skipn 10 (sort_by_start_time up)).
        apply in_or_app. now left. }
      apply filter_In in Hin. destruct Hin as [Hin Hup].
      apply upcoming_of_spec in Hup. tauto.
    + intros s' Hin' Hslug Hnow Hout s Hs.
      assert (Hsk : In s' (skipn 10 (sort_by_start_time up))).
      { assert (Hs' : In s' (sort_by_start_time up)).
        { eapply Permutation_in; [symmetry; exact Hperm|].
          apply filter_In. split; [exact Hin'|]. now apply upcoming_of_spec. }
        rewrite <- (firstn_skipn 10 (sort_by_start_time up)) in Hs'.
        apply in_app_or in Hs'. tauto. }
      exact (Hle s s' Hs Hsk).
    + intros Hlen.
      rewrite firstn_all2; [exact Hperm|].
      rewrite (Permutation_length Hperm). exact Hlen.
Qed.

Lemma get_workshop_spec_witness :
  lookup_workshop "pottery" (db seeded) = Some pottery /\
  exists w1,
    get_workshop 0 "pottery" seeded
    = (Return (WorkshopView.mk pottery [pottery_session]), w1).
Proof.
  split; [reflexivity|].
  destruct (get_workshop_spec 0 "pottery" seeded) as [_ found].
  destruct (found pottery eq_refl) as (ss & w1 & Hrun & _).
  exists w1. rewrite Hrun. vm_compute in Hrun. inversion Hrun. reflexivity.
Defined.

(** [sessions_for_workshop] never fails: it returns the upcoming sessions of
    the workshop, each once per document, in ascending order of start time,
    and leaves the store as it was.  For a slug that no session carries,
    known or not, the answer is the empty list, not an error. *)
Theorem sessions_for_workshop_spec (now : datetime) (slug : string) (w0 : World) :
  exists ss w1,
    sessions_for_workshop now slug w0 = (Return ss, w1) /\
    db w1 = db w0 /\
    Permutation ss (filter (upcoming_of slug now) (session (db w0))) /\
    StronglySorted starts_no_later ss /\
    (forall s, In s ss <->
       In s (session (db w0)) /\ Session.workshop_slug s = slug /\
       now <= Session.start_time s) /\
    ((forall s, In s (session (db w0)) -> Session.workshop_slug s <> slug) ->
     ss = []).
Proof.
  unfold sessions_for_workshop, find_workshop_sessions, query. cbv zeta.
  do 2 eexists. split; [reflexivity|]. split; [reflexivity|].
  split; [apply sort_by_start_time_perm|].
  split; [apply sort_by_start_time_sorted|]. split.
  - intros s. rewrite <- upcoming_of_spec, <- filter_In. split; intros H.
    + eapply Permutation_in; [apply sort_by_start_time_perm|exact H].
    + eapply Permutation_in; [symmetry; apply sort_by_start_time_perm|exact H].
  - intros Hnone. apply Permutation_nil. symmetry.
    rewrite sort_by_start_time_perm.
    replace (filter (upcoming_of slug now) (session (db w0))) with (@nil Session.t);
      [reflexivity|].
    symmetry. induction (session (db w0)) as [|a l IH]; [reflexivity|].
    simpl. destruct (upcoming_of slug now a) eqn:E.
    + apply upcoming_of_spec in E. destruct E as [E _].
      exfalso. apply (Hnone a (or_introl eq_refl) E).
    + apply IH. intros s Hs. apply Hnone. now right.
Qed.

Lemma sessions_for_workshop_spec_witness :
  (forall s, In s (session (db seeded)) -> Session.workshop_slug s <> "weaving") /\
  exists w1, sessions_for_workshop 0 "weaving" seeded = (Return [], w1).
Proof.
  assert (Hnone : forall s, In s (session (db seeded)) ->
                            Session.workshop_slug s <> "weaving")
    by (intros s [<-|[]]; vm_compute; discriminate).
  split; [exact Hnone|].
  destruct (sessions_for_workshop_spec 0 "weaving" seeded)
    as (ss & w1 & Hrun & _ & _ & _ & _ & Hempty).
  exists w1. rewrite Hrun, (Hempty Hnone). reflexivity.
Defined.

(** ** Reading handlers *)

Lemma get_booking_eq (booking_id : string) (w0 : World) :
  get_booking booking_id w0 =
  let d := db w0 in
  match ObjectId_new booking_id with
  | None => (Raise (HTTPException 400 "Invalid id"), w0)
  | Some i =>
      match lookup_booking i d with
      | None =>
          (Raise (HTTPException 404 "Booking not found"),
           mkWorld d (calls w0 ++ [FindOne c_booking]))
      | Some b =>
          match ObjectId_new (Booking.session_id b) with
          | None =>
              (Raise (HTTPException 400 "Invalid id"),
               mkWorld d (calls w0 ++ [FindOne c_booking]))
          | Some si =>
              (Return (BookingView.mk b (lookup_session si d)
                         (lookup_workshop (Booking.workshop_slug b) d)),
               mkWorld d (calls w0 ++ [FindOne c_booking; FindOne c_session;
                                       FindOne c_workshop]))
          end
      end
  end.
Proof.
  unfold get_booking, lookup_booking, lookup_session, lookup_workshop, bind, oid,
    find_one_booking, find_one_session, find_one_workshop, query, ret, raise, log.
  cbv zeta.
  destruct (ObjectId_new booking_id) as [i|]; [|reflexivity].
  cbn [db calls].
  destruct (find _ (booking (db w0))) as [b|]; [|reflexivity].
  destruct (ObjectId_new (Booking.session_id b)) as [si|]; [|reflexivity].
  cbn [db calls]. rewrite <- !app_assoc. reflexivity.
Qed.

Lemma initiate_payment_eq (booking_id : string) (w0 : World) :
  initiate_payment booking_id w0 =
  match ObjectId_new booking_id with
  | None => (Raise (HTTPException 400 "Invalid id"), w0)
  | Some i =>
      match lookup_booking i (db w0) with
      | None =>
          (Raise (HTTPException 404 "Booking not found"),
           mkWorld (db w0) (calls w0 ++ [FindOne c_booking]))
      | Some b =>
          (Return
             (if Status_beq (Booking.status b) confirmed
              then already_paid
              else payment_token ("PAY_" ++ last_chars 6 booking_id)%string
                     (Booking.amount b) "INR"),
           mkWorld (db w0) (calls w0 ++ [FindOne c_booking]))
      end
  end.
Proof.
  unfold initiate_payment, lookup_booking, bind, oid, find_one_booking, query, ret,
    raise, log.
  destruct (ObjectId_new booking_id) as [i|]; [|reflexivity].
  cbn [db calls].
  destruct (find _ (booking (db w0))) as [b|]; [|reflexivity].
  destruct (Status_beq _ _); reflexivity.
Qed.

Lemma send_reminders_eq (now : datetime) (w0 : World) :
  exists cs,
    send_reminders now w0
    = (Return (Z.of_nat (List.length (due_bookings now (db w0)))),
       mkWorld (with_email (db w0) (map reminder (due_bookings now (db w0))))
         (calls w0 ++ cs)).
Proof.
  unfold send_reminders, bind, find_sessions_between, query, log.
  cbv beta zeta iota.
  destruct (remind_sessions_eq
              (filter (in_window now (now + timedelta_hours 24)) (session (db w0)))
              0 (mkWorld (db w0) (calls w0 ++ [Find c_session])))
    as (cs & -> & _).
  cbn [db calls]. exists ([Find c_session] ++ cs).
  rewrite <- app_assoc. reflexivity.
Qed.

(** The handlers that only read leave the content of the store as it was,
    whether they return or raise: [next_session], [get_booking],
    [initiate_payment], [get_workshop] and [sessions_for_workshop]; and no
    insert or update call of theirs reaches the store. *)
Theorem reading_handlers_leave_store (w0 : World) :
  let reads (w1 : World) :=
    db w1 = db w0 /\
    exists cs, calls w1 = calls w0 ++ cs /\
      forall c, ~ In (InsertOne c) cs /\ ~ In (UpdateOne c) cs in
  (forall now, reads (snd (next_session now w0))) /\
  (forall booking_id, reads (snd (get_booking booking_id w0))) /\
  (forall booking_id, reads (snd (initiate_payment booking_id w0))) /\
  (forall now slug, reads (snd (get_workshop now slug w0))) /\
  (forall now slug, reads (snd (sessions_for_workshop now slug w0))).
Proof.
  cbv zeta.
  assert (Hnil : db w0 = db w0 /\
            exists cs, calls w0 = calls w0 ++ cs /\
              forall c, ~ In (InsertOne c) cs /\ ~ In (UpdateOne c) cs).
  { split; [reflexivity|]. exists []. rewrite app_nil_r.
    split; [reflexivity|]. intros c. split; intros []. }
  assert (Hcs : forall cs,
            (forall c, In c cs -> exists k, c = FindOne k \/ c = Find k \/ c = Aggregate k) ->
            db (mkWorld (db w0) (calls w0 ++ cs)) = db w0 /\
            exists cs', calls (mkWorld (db w0) (calls w0 ++ cs)) = calls w0 ++ cs' /\
              forall c, ~ In (InsertOne c) cs' /\ ~ In (UpdateOne c) cs').
  { intros cs H. split; [reflexivity|]. exists cs. split; [reflexivity|].
    intros c. split; intros F; destruct (H _ F) as (k & [E|[E|E]]); discriminate E. }
  assert (Hin : forall (l : list DbCall),
            Forall (fun c => exists k, c = FindOne k \/ c = Find k \/ c = Aggregate k) l ->
            forall c, In c l -> exists k, c = FindOne k \/ c = Find k \/ c = Aggregate k)
    by (intros l H; apply Forall_forall, H).
  split; [|split; [|split; [|split]]].
  - intros now. rewrite next_session_eq. cbv zeta.
    destruct (sort_by_start_time _); cbn [snd]; apply Hcs, Hin;
      repeat constructor; eauto.
  - intros booking_id. rewrite get_booking_eq. cbv zeta.
    destruct (ObjectId_new booking_id); [|exact Hnil].
    destruct (lookup_booking _ _) as [b|];
      [destruct (ObjectId_new (Booking.session_id b))|];
      cbn [snd]; apply Hcs, Hin; repeat constructor; eauto.
  - intros booking_id. rewrite initiate_payment_eq.
    destruct (ObjectId_new booking_id); [|exact Hnil].
    destruct (lookup_booking _ _); cbn [snd]; apply Hcs, Hin;
      repeat constructor; eauto.
  - intros now slug. rewrite get_workshop_eq.
    destruct (lookup_workshop _ _); cbn [snd]; apply Hcs, Hin;
      repeat constructor; eauto.
  - intros now slug.
    unfold sessions_for_workshop, find_workshop_sessions, query, log. cbn [snd].
    apply Hcs, Hin. repeat constructor; eauto.
Qed.

(** [next_session] never fails, and it returns no item exactly when no
    session starts at [now] or later. *)
Theorem next_session_none_iff (now : datetime) (w0 : World) :
  exists r w1,
    next_session now w0 = (Return r, w1) /\
    (r = None <-> forall s, In s (session (db w0)) -> Session.start_time s < now).
Proof.
  rewrite next_session_eq. cbv zeta.
  pose proof (sort_by_start_time_perm
                (filter (fun s => now <=? Session.start_time s) (session (db w0))))
    as Hperm.
  destruct (sort_by_start_time _) as [|s q].
  - do 2 eexists. split; [reflexivity|]. split; [|reflexivity].
    intros _ s Hs. apply Permutation_nil in Hperm.
    destruct (Z.ltb_spec (Session.start_time s) now) as [|Hge]; [assumption|].
    exfalso. assert (Hin : In s []); [|exact Hin].
    rewrite <- Hperm. apply filter_In. split; [exact Hs|]. now apply Z.leb_le.
  - do 2 eexists. split; [reflexivity|]. split; [discriminate|].
    intros Hall. exfalso.
    assert (Hin : In s (filter (fun s => now <=? Session.start_time s)
                          (session (db w0))))
      by (eapply Permutation_in; [exact Hperm|now left]).
    apply filter_In in Hin. destruct Hin as [Hin Hnow].
    apply Z.leb_le in Hnow. specialize (Hall s Hin). lia.
Qed.

(** ** How the handlers compose *)

Lemma find_fresh_app {A} (p : A -> bool) (l l' : list A) :
  find p l = None -> find p (l ++ l') = find p l'.
Proof.
  intros H. apply find_skip. intros y Hy. exact (find_none _ _ H y Hy).
Qed.

(** A [create_booking] that returns: the request named a workshop and one
    of its sessions, passed the gate, and one booking and one log entry were
    appended. *)
Lemma create_booking_returns (new_id : ObjectId) (payload : BookingRequest.t)
    (w0 w1 : World) (r : BookingResponse.t) :
  create_booking new_id payload w0 = (Return r, w1) ->
  exists w s y,
    valid_pair payload (db w0) w s /\
    BookingRequest.seats payload <= availability payload (db w0) s /\
    float_of_int (BookingRequest.seats payload) = Some y /\
    r = BookingResponse.mk (str new_id) (PrimFloat.mul (float_price w) y) "INR" /\
    db w1 = mkStore (workshop (db w0)) (session (db w0))
              (booking (db w0)
               ++ [new_booking new_id payload (PrimFloat.mul (float_price w) y)])
              (email (db w0) ++ [booking_created payload (str new_id)]).
Proof.
  rewrite create_booking_eq. cbv zeta.
  destruct (lookup_workshop _ _) as [w|] eqn:Ew; [|discriminate].
  destruct (ObjectId_new _) as [i|] eqn:Ei; [|discriminate].
  destruct (lookup_session _ _) as [s|] eqn:Es; [|discriminate].
  destruct (Session.workshop_slug s =? _)%string eqn:Eslug; [|discriminate].
  cbn [negb].
  destruct (Z.gtb_spec (BookingRequest.seats payload)
              (Session.capacity s
               - seats_held (BookingRequest.session_id payload) (booking (db w0))))
    as [|Hle]; [discriminate|].
  destruct (float_of_int _) as [y|] eqn:Ey; [|discriminate].
  intros H. inversion H; subst; clear H.
  exists w, s, y. cbn [db].
  split.
  { split; [exact Ew|]. exists i. apply String.eqb_eq in Eslug. tauto. }
  split; [exact Hle|]. repeat split.
Qed.

(** A [create_booking] that raises leaves the content of the store. *)
Lemma create_booking_raises (new_id : ObjectId) (payload : BookingRequest.t)
    (w0 w1 : World) (e : exn) :
  create_booking new_id payload w0 = (Raise e, w1) -> db w1 = db w0.
Proof.
  booking_cases; intros H; inversion H; reflexivity.
Qed.

(** A booking made by [create_booking] can be read back: when the store
    gives the new booking a twelve-byte id that no booking carries yet,
    [get_booking] on the id returned brings back that booking, pending
    payment, with the amount returned, with the session of the request and
    with its workshop attached. *)
Theorem get_booking_after_create_booking
    (new_id : ObjectId) (payload : BookingRequest.t) (w0 w1 : World)
    (r : BookingResponse.t) :
  List.length new_id = 24%nat ->
  lookup_booking new_id (db w0) = None ->
  create_booking new_id payload w0 = (Return r, w1) ->
  exists v w2 s w,
    get_booking (BookingResponse.booking_id r) w1 = (Return v, w2) /\
    BookingView.data v = new_booking new_id payload (BookingResponse.amount r) /\
    BookingView.session v = Some s /\
    BookingView.workshop v = Some w /\
    valid_pair payload (db w0) w s /\
    Workshop.slug w = BookingRequest.workshop_slug payload.
Proof.
  intros Hlen Hfresh Hrun.
  destruct (create_booking_returns _ _ _ _ _ Hrun)
    as (w & s & y & Hv & _ & _ & -> & Hdb).
  - cbn [BookingResponse.booking_id BookingResponse.amount].
    rewrite get_booking_eq. cbv zeta. rewrite (ObjectId_new_str _ Hlen), Hdb.
    unfold lookup_booking in *. cbn [booking].
    rewrite (find_fresh_app _ _ _ Hfresh). cbn [find new_booking Booking._id].
    rewrite ObjectId_eqb_refl. cbv beta iota.
    cbn [new_booking Booking.session_id Booking.workshop_slug].
    destruct Hv as (Hw & i & Hi & Hs & Hslug).
    rewrite Hi.
    do 4 eexists. split; [reflexivity|].
    cbn [BookingView.data BookingView.session BookingView.workshop].
    split; [reflexivity|].
    split; [exact Hs|]. split; [exact Hw|].
    split; [split; [exact Hw|exists i; tauto]|].
    unfold lookup_workshop in Hw. apply find_some in Hw.
    now apply String.eqb_eq.
Qed.

Lemma get_booking_after_create_booking_witness :
  List.length id_b = 24%nat /\
  lookup_booking id_b (db seeded) = None /\
  exists r w1 v w2,
    create_booking id_b (request sid_lower 3) seeded = (Return r, w1) /\
    get_booking (BookingResponse.booking_id r) w1 = (Return v, w2) /\
    BookingView.session v = Some pottery_session.
Proof.
  split; [reflexivity|]. split; [reflexivity|].
  destruct (create_booking id_b (request sid_lower 3) seeded) as [o w1] eqn:E.
  destruct o as [r|x]; [|vm_compute in E; discriminate E].
  destruct (get_booking_after_create_booking id_b (request sid_lower 3) seeded w1 r
              eq_refl eq_refl E)
    as (v & w2 & s & w & Hget & _ & Hs & _ & Hv & _).
  exists r, w1, v, w2. split; [reflexivity|]. split; [exact Hget|].
  rewrite Hs. destruct Hv as (_ & i & Hi & Hfound & _).
  vm_compute in Hi. inversion Hi; subst i.
  vm_compute in Hfound. rewrite <- Hfound. reflexivity.
Defined.

(** Right after [create_booking], under the same conditions on the new id,
    [initiate_payment] on the id returned offers the token "PAY_" followed by
    the last six characters of that id, for the amount that [create_booking]
    returned. *)
Theorem initiate_payment_after_create_booking
    (new_id : ObjectId) (payload : BookingRequest.t) (w0 w1 : World)
    (r : BookingResponse.t) :
  List.length new_id = 24%nat ->
  lookup_booking new_id (db w0) = None ->
  create_booking new_id payload w0 = (Return r, w1) ->
  exists w2,
    initiate_payment (BookingResponse.booking_id r) w1
    = (Return (payment_token
                 ("PAY_" ++ last_chars 6 (BookingResponse.booking_id r))%string
                 (BookingResponse.amount r) "INR"), w2) /\
    db w2 = db w1.
Proof.
  intros Hlen Hfresh Hrun.
  destruct (create_booking_returns _ _ _ _ _ Hrun)
    as (w & s & y & _ & _ & _ & -> & Hdb).
  - cbn [BookingResponse.booking_id BookingResponse.amount].
    rewrite initiate_payment_eq, (ObjectId_new_str _ Hlen), Hdb.
    unfold lookup_booking in *. cbn [booking].
    rewrite (find_fresh_app _ _ _ Hfresh). cbn [find new_booking Booking._id].
    rewrite ObjectId_eqb_refl. cbn [Booking.status Booking.amount Status_beq].
    eexists. split; reflexivity.
Qed.

Lemma initiate_payment_after_create_booking_witness :
  List.length id_b = 24%nat /\
  lookup_booking id_b (db seeded) = None /\
  exists r w1 w2,
    create_booking id_b (request sid_lower 3) seeded = (Return r, w1) /\
    initiate_payment (BookingResponse.booking_id r) w1
    = (Return (payment_token "PAY_8293a5" 7497%float "INR"), w2).
Proof.
  split; [reflexivity|]. split; [reflexivity|].
  destruct (create_booking id_b (request sid_lower 3) seeded) as [o w1] eqn:E.
  destruct o as [r|x]; [|vm_compute in E; discriminate E].
  destruct (initiate_payment_after_create_booking id_b (request sid_lower 3)
              seeded w1 r eq_refl eq_refl E) as (w2 & Hpay & _).
  exists r, w1, w2. split; [reflexivity|]. rewrite Hpay.
  vm_compute in E. inversion E. reflexivity.
Defined.

Lemma confirm_payment_returns (payload : PaymentConfirmRequest.t) (w0 w1 : World)
    (r : string) :
  confirm_payment payload w0 = (Return r, w1) ->
  let bid := PaymentConfirmRequest.booking_id payload in
  let ref := PaymentConfirmRequest.payment_reference payload in
  exists i b l1 l2,
    ObjectId_new bid = Some i /\
    lookup_booking i (db w0) = Some b /\
    Booking._id b = i /\
    booking (db w0) = l1 ++ b :: l2 /\
    (forall y, In y l1 -> ObjectId_eqb (Booking._id y) i = false) /\
    r = "confirmed" /\
    db w1 = mkStore (workshop (db w0)) (session (db w0))
              (l1 ++ set_confirmed ref b :: l2)
              (email (db w0) ++
                 [Email.mk "booking_confirmed" (Booking.customer_email b)
                    "HANDIQ Booking Confirmed" bid (Some ref);
                  Email.mk "admin_new_booking" "admin@handiq.example"
                    "New HANDIQ Booking" bid None]).
Proof.
  rewrite confirm_payment_eq. cbv zeta.
  destruct (ObjectId_new _) as [i|] eqn:Ei; [|discriminate].
  destruct (lookup_booking i (db w0)) as [b|] eqn:Eb; [|discriminate].
  intros H. inversion H; subst; clear H.
  unfold lookup_booking in Eb.
  destruct (update_first_some _
              (set_confirmed (PaymentConfirmRequest.payment_reference payload))
              _ _ Eb) as (l1 & l2 & El & Hl1 & Hup).
  rewrite Hup. cbn [fst db].
  exists i, b, l1, l2.
  destruct (find_some _ _ Eb) as [_ Hid]. apply ObjectId_eqb_eq in Hid.
  repeat split; try assumption; reflexivity.
Qed.

Lemma confirm_payment_raises (payload : PaymentConfirmRequest.t) (w0 w1 : World)
    (e : exn) :
  confirm_payment payload w0 = (Raise e, w1) -> db w1 = db w0.
Proof.
  rewrite confirm_payment_eq. cbv zeta.
  destruct (ObjectId_new _); [destruct (lookup_booking _ _)|];
    intros H; inversion H; reflexivity.
Qed.

Lemma seats_held_cons (sid : string) (b : Booking.t) (l : list Booking.t) :
  seats_held sid (b :: l) = seats_held sid [b] + seats_held sid l.
Proof. apply (seats_held_app sid [b] l). Qed.

(** The seats that a booking adds to those held under [sid] when it is
    confirmed: none if it already held its seats, its seats if it was
    cancelled or failed and is filed under [sid]. *)
Lemma seats_held_set_confirmed (sid ref : string) (b : Booking.t) :
  seats_held sid [set_confirmed ref b]
  = seats_held sid [b]
    + (if status_in_pending_confirmed b then 0
       else if string_dec (Booking.session_id b) sid then Booking.seats b else 0).
Proof.
  unfold status_in_pending_confirmed. simpl.
  destruct (string_dec _ _); destruct (Booking.status b); lia.
Qed.

(** [confirm_payment] checks no capacity.  Confirming a booking that is
    pending or already confirmed leaves the seats held under every session id
    as they were; confirming a cancelled or failed booking puts its seats
    back among those held under its session id, and changes nothing under any
    other id. *)
Theorem confirm_payment_seats_held (payload : PaymentConfirmRequest.t)
    (w0 w1 : World) (r : string) :
  confirm_payment payload w0 = (Return r, w1) ->
  exists i b,
    ObjectId_new (PaymentConfirmRequest.booking_id payload) = Some i /\
    lookup_booking i (db w0) = Some b /\
    forall sid,
      seats_held sid (booking (db w1))
      = seats_held sid (booking (db w0))
        + (if status_in_pending_confirmed b then 0
           else if string_dec (Booking.session_id b) sid then Booking.seats b
                else 0).
Proof.
  intros Hrun.
  destruct (confirm_payment_returns _ _ _ _ Hrun)
    as (i & b & l1 & l2 & Hi & Hb & _ & Hl & _ & _ & Hdb).
  exists i, b. split; [exact Hi|]. split; [exact Hb|].
  intros sid. rewrite Hdb, Hl. cbn [booking].
  rewrite !seats_held_app, (seats_held_cons sid (set_confirmed _ b)),
    (seats_held_cons sid b), seats_held_set_confirmed.
  lia.
Qed.

Lemma confirm_payment_seats_held_witness :
  exists w1,
    confirm_payment (PaymentConfirmRequest.mk (str id_b) "PAY_7") lapsed
    = (Return "confirmed", w1) /\
    seats_held sid_lower (booking (db lapsed)) = 0 /\
    seats_held sid_lower (booking (db w1)) = 2.
Proof.
  destruct (confirm_payment (PaymentConfirmRequest.mk (str id_b) "PAY_7") lapsed)
    as [o w1] eqn:E.
  destruct o as [r|x]; [|vm_compute in E; discriminate E].
  destruct (confirm_payment_seats_held _ _ _ _ E) as (i & b & Hi & Hb & Hheld).
  exists w1. split; [vm_compute in E; inversion E; reflexivity|].
  split; [reflexivity|].
  rewrite Hheld. vm_compute in Hi. inversion Hi; subst i.
  vm_compute in Hb. inversion Hb; subst b. reflexivity.
Defined.

(** Confirming the same booking again succeeds again: the last payment
    reference wins, the bookings are otherwise as after the first
    confirmation, and two more log entries are appended each time. *)
Theorem confirm_payment_again (first second : PaymentConfirmRequest.t)
    (w0 w1 : World) (r : string) :
  PaymentConfirmRequest.booking_id second = PaymentConfirmRequest.booking_id first ->
  confirm_payment first w0 = (Return r, w1) ->
  exists w2 i b,
    confirm_payment second w1 = (Return "confirmed", w2) /\
    ObjectId_new (PaymentConfirmRequest.booking_id first) = Some i /\
    lookup_booking i (db w0) = Some b /\
    lookup_booking i (db w2)
    = Some (set_confirmed (PaymentConfirmRequest.payment_reference second) b) /\
    (PaymentConfirmRequest.payment_reference second
     = PaymentConfirmRequest.payment_reference first ->
     booking (db w2) = booking (db w1)) /\
    List.length (email (db w2)) = (List.length (email (db w0)) + 4)%nat.
Proof.
  intros Hid Hrun.
  destruct (confirm_payment_returns _ _ _ _ Hrun)
    as (i & b & l1 & l2 & Hi & Hb & Hbid & Hl & Hl1 & _ & Hdb).
  assert (Hfound : lookup_booking i (db w1)
                   = Some (set_confirmed
                             (PaymentConfirmRequest.payment_reference first) b)).
  { rewrite Hdb. unfold lookup_booking. cbn [booking].
    rewrite (find_skip _ l1 _ Hl1). cbn [find set_confirmed Booking._id].
    rewrite Hbid, ObjectId_eqb_refl. reflexivity. }
  destruct (confirm_payment second w1) as [o w2] eqn:E2.
  rewrite confirm_payment_eq in E2. cbv zeta in E2.
  rewrite Hid, Hi, Hfound in E2.
  inversion E2; subst o w2; clear E2.
  exists (mkWorld
            (mkStore (workshop (db w1)) (session (db w1))
               (fst (update_first (fun b0 => ObjectId_eqb (Booking._id b0) i)
                       (set_confirmed (PaymentConfirmRequest.payment_reference second))
                       (booking (db w1))))
               (email (db w1) ++
                  [Email.mk "booking_confirmed"
                     (Booking.customer_email
                        (set_confirmed (PaymentConfirmRequest.payment_reference first) b))
                     "HANDIQ Booking Confirmed"
                     (PaymentConfirmRequest.booking_id first)
                     (Some (PaymentConfirmRequest.payment_reference second));
                   Email.mk "admin_new_booking" "admin@handiq.example"
                     "New HANDIQ Booking"
                     (PaymentConfirmRequest.booking_id first) None]))
            (calls w1 ++ [UpdateOne c_booking; FindOne c_booking;
                          InsertOne c_email; InsertOne c_email])), i, b.
  split; [reflexivity|]. split; [exact Hi|]. split; [exact Hb|].
  unfold lookup_booking in Hfound.
  destruct (update_first_some _
              (set_confirmed (PaymentConfirmRequest.payment_reference second))
              _ _ Hfound) as (k1 & k2 & Hk & Hk1 & Hup).
  rewrite Hup. cbn [fst db booking email].
  split; [|split].
  - unfold lookup_booking. cbn [booking].
    rewrite (find_skip _ k1 _ Hk1). cbn [find set_confirmed Booking._id].
    rewrite Hbid, ObjectId_eqb_refl. reflexivity.
  - intros Href. rewrite Hk, Href. reflexivity.
  - rewrite Hdb. cbn [email]. rewrite !length_app. simpl. lia.
Qed.

Lemma confirm_payment_again_witness :
  exists w1 w2,
    confirm_payment (PaymentConfirmRequest.mk (str id_b) "PAY_7") lapsed
    = (Return "confirmed", w1) /\
    confirm_payment (PaymentConfirmRequest.mk (str id_b) "PAY_8") w1
    = (Return "confirmed", w2) /\
    lookup_booking id_b (db w2) = Some (set_confirmed "PAY_8" lapsed_booking).
Proof.
  destruct (confirm_payment (PaymentConfirmRequest.mk (str id_b) "PAY_7") lapsed)
    as [o w1] eqn:E.
  destruct o as [r|x]; [|vm_compute in E; discriminate E].
  destruct (confirm_payment_again (PaymentConfirmRequest.mk (str id_b) "PAY_7")
              (PaymentConfirmRequest.mk (str id_b) "PAY_8") lapsed w1 r eq_refl E)
    as (w2 & i & b & Hrun & Hi & Hb & Hlast & _).
  exists w1, w2. split; [vm_compute in E; inversion E; reflexivity|].
  split; [exact Hrun|].
  vm_compute in Hi. inversion Hi; subst i.
  vm_compute in Hb. inversion Hb; subst b. exact Hlast.
Defined.

(** Once [confirm_payment] has returned, [initiate_payment] on the same id
    reports the booking as already paid, whatever its status was before. *)
Theorem initiate_payment_after_confirm_payment (payload : PaymentConfirmRequest.t)
    (w0 w1 : World) (r : string) :
  confirm_payment payload w0 = (Return r, w1) ->
  exists w2,
    initiate_payment (PaymentConfirmRequest.booking_id payload) w1
    = (Return already_paid, w2).
Proof.
  intros Hrun.
  destruct (confirm_payment_returns _ _ _ _ Hrun)
    as (i & b & l1 & l2 & Hi & _ & Hbid & _ & Hl1 & _ & Hdb).
  rewrite initiate_payment_eq, Hi, Hdb. unfold lookup_booking. cbn [booking].
  rewrite (find_skip _ l1 _ Hl1). cbn [find set_confirmed Booking._id].
  rewrite Hbid, ObjectId_eqb_refl. cbn [Booking.status Status_beq].
  eexists. reflexivity.
Qed.

Lemma initiate_payment_after_confirm_payment_witness :
  exists w1 w2,
    confirm_payment (PaymentConfirmRequest.mk (str id_b) "PAY_7") lapsed
    = (Return "confirmed", w1) /\
    initiate_payment (str id_b) w1 = (Return already_paid, w2).
Proof.
  destruct (confirm_payment (PaymentConfirmRequest.mk (str id_b) "PAY_7") lapsed)
    as [o w1] eqn:E.
  destruct o as [r|x]; [|vm_compute in E; discriminate E].
  destruct (initiate_payment_after_confirm_payment _ _ _ _ E) as [w2 Hpay].
  exists w1, w2. split; [vm_compute in E; inversion E; reflexivity|exact Hpay].
Defined.

(** [send_reminders] keeps no record of what it has sent: a second run at the
    same time returns the same count and appends the same reminders once
    more. *)
Theorem send_reminders_again (now : datetime) (w0 : World) :
  exists n w1 w2,
    send_reminders now w0 = (Return n, w1) /\
    send_reminders now w1 = (Return n, w2) /\
    email (db w2)
    = email (db w0)
      ++ map reminder (due_bookings now (db w0))
      ++ map reminder (due_bookings now (db w0)) /\
    booking (db w2) = booking (db w0).
Proof.
  destruct (send_reminders_eq now w0) as [cs ->].
  match goal with
  | |- exists n w1 w2, (_, ?w) = _ /\ _ =>
      destruct (send_reminders_eq now w) as [cs' Hsecond]
  end.
  do 3 eexists. split; [reflexivity|]. split; [exact Hsecond|].
  cbn [db with_email email booking]. rewrite <- app_assoc.
  split; reflexivity.
Qed.

(** ** Capacity over sequences of requests *)

Lemma reading_handlers_db (w0 : World) :
  (forall now, db (snd (next_session now w0)) = db w0) /\
  (forall booking_id, db (snd (get_booking booking_id w0)) = db w0) /\
  (forall booking_id, db (snd (initiate_payment booking_id w0)) = db w0) /\
  (forall now slug, db (snd (get_workshop now slug w0)) = db w0) /\
  (forall now slug, db (snd (sessions_for_workshop now slug w0)) = db w0).
Proof.
  split; [|split; [|split; [|split]]].
  - intros now. rewrite next_session_eq. cbv zeta.
    destruct (sort_by_start_time _); reflexivity.
  - intros booking_id. rewrite get_booking_eq. cbv zeta.
    destruct (ObjectId_new booking_id); [|reflexivity].
    destruct (lookup_booking _ _) as [b|];
      [destruct (ObjectId_new (Booking.session_id b))|]; reflexivity.
  - intros booking_id. rewrite initiate_payment_eq.
    destruct (ObjectId_new booking_id); [|reflexivity].
    destruct (lookup_booking _ _); reflexivity.
  - intros now slug. rewrite get_workshop_eq.
    destruct (lookup_workshop _ _); reflexivity.
  - intros now slug. reflexivity.
Qed.

(** What every request keeps: each booking is pending or confirmed, and the
    seats held under an id string that denotes a session do not exceed the
    capacity of that session. *)
Lemma serve_keeps_capacity (r : request_to) (w0 : World) :
  (forall b, In b (booking (db w0)) -> status_in_pending_confirmed b = true) ->
  (forall sid i s,
      ObjectId_new sid = Some i -> lookup_session i (db w0) = Some s ->
      seats_held sid (booking (db w0)) <= Session.capacity s) ->
  session (db (serve r w0)) = session (db w0) /\
  (forall b, In b (booking (db (serve r w0))) -> status_in_pending_confirmed b = true) /\
  (forall sid i s,
      ObjectId_new sid = Some i -> lookup_session i (db (serve r w0)) = Some s ->
      seats_held sid (booking (db (serve r w0))) <= Session.capacity s).
Proof.
  intros Hstatus Hcap.
  assert (Hsame : forall w1, db w1 = db w0 ->
            session (db w1) = session (db w0) /\
            (forall b, In b (booking (db w1)) -> status_in_pending_confirmed b = true) /\
            (forall sid i s,
                ObjectId_new sid = Some i -> lookup_session i (db w1) = Some s ->
                seats_held sid (booking (db w1)) <= Session.capacity s)).
  { intros w1 ->. repeat split; assumption. }
  destruct (reading_handlers_db w0)
    as (Hnext & Hget & Hinit & Hshop & Hsess).
  destruct r as [new_id payload|payload|now|now|bid|bid|now slug|now slug];
    cbn [serve];
    try (apply Hsame; solve [apply Hnext|apply Hget|apply Hinit|apply Hshop|apply Hsess]).
  - destruct (create_booking new_id payload w0) as [[r|e] w1] eqn:E; cbn [snd].
    + destruct (create_booking_returns _ _ _ _ _ E)
        as (w & s & y & Hv & Hle & _ & _ & Hdb).
      rewrite Hdb. cbn [session booking]. split; [reflexivity|]. split.
      * intros b Hb. apply in_app_or in Hb. destruct Hb as [Hb|[<-|[]]];
          [now apply Hstatus|reflexivity].
      * intros sid i s' Hi Hs'. unfold lookup_session in Hs'. cbn [session] in Hs'.
        rewrite seats_held_app.
        destruct (string_dec sid (BookingRequest.session_id payload)) as [->|Hne].
        -- rewrite seats_held_new_booking by reflexivity.
           destruct Hv as (_ & i' & Hi' & Hs & _).
           rewrite Hi in Hi'. inversion Hi'; subst i'.
           unfold lookup_session in Hs. rewrite Hs in Hs'. inversion Hs'; subst s'.
           unfold availability in Hle. lia.
        -- specialize (Hcap sid i s' Hi Hs'). simpl.
           destruct (string_dec _ _) as [e|_]; [congruence|lia].
    + apply Hsame. exact (create_booking_raises _ _ _ _ _ E).
  - destruct (confirm_payment payload w0) as [[r|e] w1] eqn:E; cbn [snd].
    + destruct (confirm_payment_returns _ _ _ _ E)
        as (i & b & l1 & l2 & _ & Hb & _ & Hl & _ & _ & Hdb).
      assert (Hbin : In b (booking (db w0)))
        by (rewrite Hl; apply in_or_app; right; now left).
      rewrite Hdb. cbn [session booking]. split; [reflexivity|]. split.
      * intros b' Hb'. apply in_app_or in Hb'. destruct Hb' as [Hb'|[<-|Hb']].
        -- apply Hstatus. rewrite Hl. apply in_or_app. now left.
        -- reflexivity.
        -- apply Hstatus. rewrite Hl. apply in_or_app. right. now right.
      * intros sid i' s Hi' Hs. unfold lookup_session in Hs. cbn [session] in Hs.
        specialize (Hcap sid i' s Hi' Hs). rewrite Hl in Hcap.
        rewrite !seats_held_app, (seats_held_cons sid (set_confirmed _ b)),
          seats_held_set_confirmed, (Hstatus b Hbin).
        rewrite !seats_held_app, (seats_held_cons sid b) in Hcap. lia.
    + apply Hsame. exact (confirm_payment_raises _ _ _ _ E).
  - destruct (send_reminders_eq now w0) as [cs ->]. cbn [snd db].
    unfold with_email. cbn [session booking]. repeat split; assumption.
Qed.

Lemma serve_all_keeps_capacity (rs : list request_to) :
  forall w0,
    (forall b, In b (booking (db w0)) -> status_in_pending_confirmed b = true) ->
    (forall sid i s,
        ObjectId_new sid = Some i -> lookup_session i (db w0) = Some s ->
        seats_held sid (booking (db w0)) <= Session.capacity s) ->
    session (db (serve_all rs w0)) = session (db w0) /\
    (forall b, In b (booking (db (serve_all rs w0))) ->
               status_in_pending_confirmed b = true) /\
    (forall sid i s,
        ObjectId_new sid = Some i -> lookup_session i (db (serve_all rs w0)) = Some s ->
        seats_held sid (booking (db (serve_all rs w0))) <= Session.capacity s).
Proof.
  induction rs as [|r rs IH]; intros w0 Hstatus Hcap.
  - repeat split; assumption.
  - destruct (serve_keeps_capacity r w0 Hstatus Hcap) as (Hsess & Hstatus' & Hcap').
    destruct (IH (serve r w0) Hstatus' Hcap') as (Hsess'' & Hstatus'' & Hcap'').
    change (serve_all (r :: rs) w0) with (serve_all rs (serve r w0)).
    split; [congruence|]. split; assumption.
Qed.

(** Starting from a store without bookings whose sessions have a capacity of
    at least 0, serve any requests one after the other, in any order and
    whatever their outcomes.  Then the sessions are as they were, every
    booking is pending or confirmed (no handler cancels), and for every id
    string that denotes a session the seats held under that string do not
    exceed the capacity of the session.  The bound is per id string: it says
    nothing of the sum over several strings that denote one session. *)
Theorem capacity_kept_per_id_string (rs : list request_to) (w0 : World) :
  booking (db w0) = [] ->
  (forall s, In s (session (db w0)) -> 0 <= Session.capacity s) ->
  let w := serve_all rs w0 in
  session (db w) = session (db w0) /\
  (forall b, In b (booking (db w)) ->
             Booking.status b = pending_payment \/ Booking.status b = confirmed) /\
  (forall sid i s,
      ObjectId_new sid = Some i -> lookup_session i (db w) = Some s ->
      seats_held sid (booking (db w)) <= Session.capacity s).
Proof.
  intros Hnone Hpos. cbv zeta.
  destruct (serve_all_keeps_capacity rs w0) as (Hsess & Hstatus & Hcap).
  - rewrite Hnone. intros b [].
  - intros sid i s _ Hs. rewrite Hnone. simpl.
    unfold lookup_session in Hs. apply find_some in Hs. apply Hpos, Hs.
  - split; [exact Hsess|]. split; [|exact Hcap].
    intros b Hb. specialize (Hstatus b Hb).
    unfold status_in_pending_confirmed in Hstatus.
    destruct (Booking.status b); try discriminate; tauto.
Qed.

Lemma capacity_kept_per_id_string_witness :
  booking (db seeded) = [] /\
  (forall s, In s (session (db seeded)) -> 0 <= Session.capacity s) /\
  let w := serve_all [CreateBooking id_b (request sid_lower 10);
                      ConfirmPayment (PaymentConfirmRequest.mk (str id_b) "PAY_7");
                      CreateBooking id_c (request sid_lower 1)] seeded in
  seats_held sid_lower (booking (db w)) <= 10 /\
  List.length (booking (db w)) = 1%nat.
Proof.
  assert (Hpos : forall s, In s (session (db seeded)) -> 0 <= Session.capacity s)
    by (intros s [<-|[]]; vm_compute; discriminate).
  split; [reflexivity|]. split; [exact Hpos|]. cbv zeta.
  split; [|reflexivity].
  destruct (capacity_kept_per_id_string
              [CreateBooking id_b (request sid_lower 10);
               ConfirmPayment (PaymentConfirmRequest.mk (str id_b) "PAY_7");
               CreateBooking id_c (request sid_lower 1)] seeded eq_refl Hpos)
    as (_ & _ & Hcap).
  apply (Hcap sid_lower id_a pottery_session); reflexivity.
Defined.

Lemma create_booking_within_capacity_per_id_string_witness :
  valid_pair (request sid_lower 4) (db overfull) pottery pottery_session /\
  exists r w1,
    create_booking id_a (request sid_lower (-4)) overfull = (Return r, w1) /\
    seats_held sid_lower (booking (db w1)) <= Session.capacity pottery_session /\
    seats_held sid_upper (booking (db w1)) = seats_held sid_upper (booking (db overfull)).
Proof.
  assert (Hv : forall n, valid_pair (request sid_lower n) (db overfull)
                           pottery pottery_session).
  { intros n. split; [reflexivity|]. exists id_a. repeat split; reflexivity. }
  split; [apply Hv|].
  destruct (create_booking id_a (request sid_lower (-4)) overfull) as [o w1] eqn:E.
  destruct o as [r|x]; [|vm_compute in E; discriminate E].
  destruct (create_booking_within_capacity_per_id_string id_a
              (request sid_lower (-4)) overfull w1 r pottery pottery_session
              (Hv (-4)) E) as [Hle Hother].
  exists r, w1. split; [reflexivity|]. split; [exact Hle|].
  apply Hother. vm_compute. discriminate.
Defined.

(** ** [add_review] *)

(** [add_review] accepts exactly the ratings that the schema [Review]
    allows.  A rating outside 1..5 is refused with "Rating must be 1-5" and
    the collection is left as it was; a rating inside is stored in one new
    review, appended with the fields given, whose id is returned.  Hence if
    every stored review has a rating in 1..5, so it is afterwards. *)
Theorem add_review_spec (new_id : ObjectId) (workshop_slug name : string)
    (rating : Z) (comment : string) (reviews : list Review.t) :
  let run := add_review new_id workshop_slug name rating comment reviews in
  (Review_rating_ok rating ->
   run = (Return (str new_id),
          reviews ++ [Review.mk new_id workshop_slug name rating comment]))
  /\
  (~ Review_rating_ok rating ->
   run = (Raise (HTTPException 400 "Rating must be 1-5"), reviews))
  /\
  ((forall r, In r reviews -> Review_rating_ok (Review.rating r)) ->
   forall r, In r (snd run) -> Review_rating_ok (Review.rating r)).
Proof.
  cbv zeta. unfold add_review, Review_rating_ok.
  destruct (Z.ltb_spec rating 1) as [Hlo|Hlo];
    destruct (Z.gtb_spec rating 5) as [Hhi|Hhi]; cbn [orb snd];
    (split; [intros Hok; try lia; reflexivity|]);
    (split; [intros Hno; try lia; reflexivity|]);
    intros Hall r Hr; try (apply Hall; exact Hr).
  apply in_app_or in Hr. destruct Hr as [Hr|[<-|[]]]; [apply Hall, Hr|].
  cbn [Review.rating]. lia.
Qed.

Lemma add_review_spec_witness :
  Review_rating_ok 5 /\ ~ Review_rating_ok 6 /\
  add_review id_a "pottery" "Asha" 5 "Lovely" []
  = (Return (str id_a), [Review.mk id_a "pottery" "Asha" 5 "Lovely"]) /\
  add_review id_a "pottery" "Asha" 6 "Lovely" []
  = (Raise (HTTPException 400 "Rating must be 1-5"), []).
Proof.
  assert (H5 : Review_rating_ok 5) by (unfold Review_rating_ok; lia).
  assert (H6 : ~ Review_rating_ok 6) by (unfold Review_rating_ok; lia).
  split; [exact H5|]. split; [exact H6|].
  split.
  - apply (add_review_spec id_a "pottery" "Asha" 5 "Lovely" []). exact H5.
  - apply (add_review_spec id_a "pottery" "Asha" 6 "Lovely" []). exact H6.
Defined.

(** ** [ensure_seed] *)

(** [ensure_seed] does nothing when the database is not connected.
    Otherwise it fills the workshop collection with the four seed workshops
    if, and only if, that collection is empty, and it fills the session
    collection if, and only if, that one is empty, whether or not workshops
    were just created: 36 sessions, nine per seed workshop.  Bookings and log
    entries are never touched, and the call never fails. *)
Theorem ensure_seed_spec (connected : bool) (ids : nat -> ObjectId) (now : datetime)
    (w0 : World) :
  exists w1,
    ensure_seed connected ids now w0 = (Return tt, w1) /\
    workshop (db w1)
    = (if connected
       then match workshop (db w0) with [] => WORKSHOPS | _ :: _ => workshop (db w0) end
       else workshop (db w0)) /\
    session (db w1)
    = (if connected
       then match session (db w0) with
            | [] => seeded_sessions ids now
            | _ :: _ => session (db w0)
            end
       else session (db w0)) /\
    booking (db w1) = booking (db w0) /\
    email (db w1) = email (db w0) /\
    (connected = false -> w1 = w0).
Proof.
  destruct w0 as [[ws ss bs es] cs].
  destruct connected.
  - destruct ws as [|w ws], ss as [|s ss];
      (eexists; split; [cbv -[Z.add Z.mul Z.of_nat List.length app]; reflexivity|]);
      cbn [db workshop session booking email];
      repeat split; try reflexivity; try discriminate.
  - exists (mkWorld (mkStore ws ss bs es) cs). repeat split; reflexivity.
Qed.

(** Seeding is idempotent: once [ensure_seed] has run, running it again, at
    any later time and with any ids on offer, leaves the content of the store
    as the first run left it. *)
Theorem ensure_seed_idempotent (connected : bool) (ids ids' : nat -> ObjectId)
    (now now' : datetime) (w0 : World) :
  db (snd (ensure_seed connected ids' now' (snd (ensure_seed connected ids now w0))))
  = db (snd (ensure_seed connected ids now w0)).
Proof.
  destruct w0 as [[ws ss bs es] cs].
  destruct connected; [|reflexivity].
  destruct ws as [|w ws], ss as [|s ss];
    cbv -[Z.add Z.mul Z.of_nat List.length app]; reflexivity.
Qed.

(** Every session that [ensure_seed] creates has capacity 10, belongs to one
    of the seed workshops, lasts as long as that workshop, and starts ten
    hours after a whole number of days, from one to nine, past the time of
    seeding; so none of them starts within the 24 hours that follow. *)
Theorem seeded_sessions_shape (ids : nat -> ObjectId) (now : datetime) (s : Session.t) :
  In s (seeded_sessions ids now) ->
  Session.capacity s = 10 /\
  (exists w d,
      In w WORKSHOPS /\ 1 <= d <= 9 /\
      Session.workshop_slug s = Workshop.slug w /\
      Session.start_time s = now + (d * 24 + 10) * 3600 * 1000000 /\
      Session.end_time s
      = Session.start_time s + Workshop.duration_minutes w * 60 * 1000000) /\
  in_window now (now + timedelta_hours 24) s = false.
Proof.
  unfold seeded_sessions. rewrite in_map_iff. intros (k & <- & Hk).
  apply in_seq in Hk.
  assert (Hmod : (k mod 9 < 9)%nat) by (apply Nat.mod_upper_bound; lia).
  assert (Hdiv : (k / 9 < 4)%nat) by (apply Nat.Div0.div_lt_upper_bound; lia).
  split; [reflexivity|]. split.
  - exists (nth (k / 9) WORKSHOPS pottery), (Z.of_nat (k mod 9) + 1).
    split; [apply nth_In; exact Hdiv|].
    split; [lia|]. repeat split.
  - unfold in_window, seed_session, timedelta_hours. cbn [Session.start_time].
    apply andb_false_iff. right. apply Z.leb_gt. lia.
Qed.

Lemma seeded_sessions_shape_witness :
  In (seed_session (example_ids 9) 0 pottery 1) (seeded_sessions example_ids 0) /\
  Session.capacity (seed_session (example_ids 9) 0 pottery 1) = 10.
Proof.
  assert (Hin : In (seed_session (example_ids 9) 0 pottery 1)
                  (seeded_sessions example_ids 0)).
  { unfold seeded_sessions. apply in_map_iff. exists 9%nat.
    split; [reflexivity|]. apply in_seq. lia. }
  split; [exact Hin|].
  apply (seeded_sessions_shape example_ids 0 _ Hin).
Defined.

(** ** [serialize] *)

Section Serialize.

Variable isoformat : datetime -> string.
Variable repr : value -> string.

Lemma iso_item_eq (kv : string * value) :
  iso_item isoformat kv = (fst kv, iso_value isoformat (snd kv)).
Proof. destruct kv as [k v]. destruct v; reflexivity. Qed.

Lemma dict_get_map_iso (k : string) (d : dict) :
  dict_get k (map (iso_item isoformat) d)
  = option_map (iso_value isoformat) (dict_get k d).
Proof.
  induction d as [|[k' v] d IH]; [reflexivity|].
  cbn [map]. rewrite iso_item_eq. cbn [dict_get fst snd].
  destruct (k' =? k)%string; [reflexivity|exact IH].
Qed.

Lemma dict_get_del_same (k : string) (d : dict) : dict_get k (dict_del k d) = None.
Proof.
  induction d as [|[k' v] d IH]; [reflexivity|].
  unfold dict_del in *. cbn [filter fst].
  destruct (k' =? k)%string eqn:E; cbn [negb]; [exact IH|].
  cbn [dict_get]. rewrite E. exact IH.
Qed.

Lemma dict_get_del_other (k k' : string) (d : dict) :
  k' <> k -> dict_get k' (dict_del k d) = dict_get k' d.
Proof.
  intros Hne. induction d as [|[k0 v] d IH]; [reflexivity|].
  unfold dict_del in *. cbn [filter fst dict_get].
  destruct (k0 =? k)%string eqn:E; cbn [negb].
  - apply String.eqb_eq in E. subst k0.
    destruct (k =? k')%string eqn:E'; [|exact IH].
    apply String.eqb_eq in E'. congruence.
  - cbn [dict_get]. destruct (k0 =? k')%string; [reflexivity|exact IH].
Qed.

Lemma dict_get_set_same (k : string) (v : value) (d : dict) :
  dict_get k (dict_set k v d) = Some v.
Proof.
  induction d as [|[k' v'] d IH]; cbn [dict_set dict_get].
  - rewrite String.eqb_refl. reflexivity.
  - destruct (k' =? k)%string eqn:E; cbn [dict_get].
    + rewrite String.eqb_refl. reflexivity.
    + rewrite E. exact IH.
Qed.

Lemma dict_get_set_other (k k' : string) (v : value) (d : dict) :
  k' <> k -> dict_get k' (dict_set k v d) = dict_get k' d.
Proof.
  intros Hne. induction d as [|[k0 v0] d IH]; cbn [dict_set dict_get].
  - destruct (k =? k')%string eqn:E; [|reflexivity].
    apply String.eqb_eq in E. congruence.
  - destruct (k0 =? k)%string eqn:E; cbn [dict_get].
    + apply String.eqb_eq in E. subst k0.
      destruct (k =? k')%string eqn:E'; [|reflexivity].
      apply String.eqb_eq in E'. congruence.
    + destruct (k0 =? k')%string; [reflexivity|exact IH].
Qed.

Lemma truthy_iso_value (v : value) :
  truthy v = false -> iso_value isoformat v = v.
Proof. destruct v; simpl; intros H; try reflexivity; discriminate H. Qed.

Lemma iso_value_twice (v : value) :
  iso_value isoformat (iso_value isoformat v) = iso_value isoformat v.
Proof. destruct v; reflexivity. Qed.

Lemma map_iso_item_twice (d : dict) :
  map (iso_item isoformat) (map (iso_item isoformat) d) = map (iso_item isoformat) d.
Proof.
  rewrite map_map. apply map_ext. intros kv.
  rewrite !iso_item_eq. cbn [fst snd]. rewrite iso_value_twice. reflexivity.
Qed.

(** The form of [serialize] on any document. *)
Lemma serialize_eq (doc : dict) :
  serialize isoformat repr doc =
  map (iso_item isoformat)
    match dict_get "_id" doc with
    | Some _id =>
        if truthy _id
        then dict_del "_id" (dict_set "id" (VStr (py_str repr _id)) doc)
        else doc
    | None => doc
    end.
Proof. destruct doc; reflexivity. Qed.

(** [serialize] moves the id of a document: when the document has an [_id]
    that counts as true, as every [ObjectId] does, the result has no [_id]
    key and carries the text of the id under [id].  When [_id] is missing, or
    counts as false, nothing is moved: the result has the keys of the
    document, in the same order. *)
Theorem serialize_id (doc : dict) :
  (forall v, dict_get "_id" doc = Some v -> truthy v = true ->
     dict_get "_id" (serialize isoformat repr doc) = None /\
     dict_get "id" (serialize isoformat repr doc) = Some (VStr (py_str repr v)))
  /\
  ((dict_get "_id" doc = None \/
    exists v, dict_get "_id" doc = Some v /\ truthy v = false) ->
   map fst (serialize isoformat repr doc) = map fst doc).
Proof.
  rewrite serialize_eq. split.
  - intros v Hv Ht. rewrite Hv, Ht. rewrite !dict_get_map_iso.
    rewrite dict_get_del_same.
    rewrite dict_get_del_other by discriminate.
    rewrite dict_get_set_same. split; reflexivity.
  - intros H.
    assert (Hkeys : forall d : dict, map fst (map (iso_item isoformat) d) = map fst d).
    { intros d. rewrite map_map. apply map_ext. intros kv.
      rewrite iso_item_eq. reflexivity. }
    destruct H as [->|(v & -> & ->)]; apply Hkeys.
Qed.

(** No datetime is left at the top level of a serialized document. *)
Theorem serialize_no_datetime (doc : dict) (k : string) (v : value) :
  In (k, v) (serialize isoformat repr doc) -> forall t, v <> VDatetime t.
Proof.
  rewrite serialize_eq, in_map_iff. intros ([k' v'] & E & _) t ->.
  rewrite iso_item_eq in E. cbn [fst snd] in E. inversion E as [[Hk Hv]].
  destruct v'; discriminate Hv.
Qed.

(** Every other field passes through [serialize]: under a key other than
    [_id] and [id], the result holds what the document holds, a datetime
    being replaced by its ISO text. *)
Theorem serialize_other_fields (doc : dict) (k : string) :
  k <> "_id" -> k <> "id" ->
  dict_get k (serialize isoformat repr doc)
  = option_map (iso_value isoformat) (dict_get k doc).
Proof.
  intros Hid Hid'. rewrite serialize_eq, dict_get_map_iso.
  destruct (dict_get "_id" doc) as [v|]; [|reflexivity].
  destruct (truthy v); [|reflexivity].
  rewrite dict_get_del_other by exact Hid.
  rewrite dict_get_set_other by exact Hid'. reflexivity.
Qed.

(** Serializing twice is serializing once. *)
Theorem serialize_idempotent (doc : dict) :
  serialize isoformat repr (serialize isoformat repr doc)
  = serialize isoformat repr doc.
Proof.
  rewrite (serialize_eq (serialize isoformat repr doc)).
  assert (Hget : dict_get "_id" (serialize isoformat repr doc) = None \/
                 exists v, dict_get "_id" (serialize isoformat repr doc) = Some v /\
                           truthy v = false).
  { rewrite serialize_eq, dict_get_map_iso.
    destruct (dict_get "_id" doc) as [v|] eqn:E; [|left; rewrite E; reflexivity].
    destruct (truthy v) eqn:Et.
    - left. rewrite dict_get_del_same. reflexivity.
    - right. exists v. rewrite E. cbn [option_map].
      rewrite (truthy_iso_value v Et). split; [reflexivity|exact Et]. }
  destruct Hget as [->|(v & -> & ->)];
    rewrite serialize_eq; apply map_iso_item_twice.
Qed.

(** A session leaves [serialize] with its fields in the order of the stored
    document, the two datetimes as ISO texts, and its id, rendered in
    lower-case hexadecimal, last and under the key [id]. *)
Theorem serialize_session_doc (s : Session.t) :
  serialize isoformat repr (session_doc s) =
  [ ("workshop_slug", VStr (Session.workshop_slug s));
    ("start_time", VStr (isoformat (Session.start_time s)));
    ("end_time", VStr (isoformat (Session.end_time s)));
    ("capacity", VInt (Session.capacity s));
    ("id", VStr (str (Session._id s))) ].
Proof. reflexivity. Qed.

End Serialize.

Lemma serialize_id_witness :
  dict_get "_id" (session_doc pottery_session) = Some (VOid id_a) /\
  truthy (VOid id_a) = true /\
  dict_get "_id" (serialize str_int (fun _ => "") (session_doc pottery_session)) = None /\
  dict_get "id" (serialize str_int (fun _ => "") (session_doc pottery_session))
  = Some (VStr sid_lower).
Proof.
  split; [reflexivity|]. split; [reflexivity|].
  destruct (serialize_id str_int (fun _ => "") (session_doc pottery_session)) as [moved _].
  exact (moved (VOid id_a) eq_refl eq_refl).
Defined.

Lemma serialize_no_datetime_witness :
  In ("start_time", VStr (str_int 122400000000))
     (serialize str_int (fun _ => "") (session_doc pottery_session)) /\
  VStr (str_int 122400000000) <> VDatetime 122400000000.
Proof.
  assert (Hin : In ("start_time", VStr (str_int 122400000000))
                  (serialize str_int (fun _ => "") (session_doc pottery_session)))
    by (right; left; reflexivity).
  split; [exact Hin|].
  exact (serialize_no_datetime str_int (fun _ => "") (session_doc pottery_session) _ _ Hin 122400000000).
Defined.

Lemma serialize_other_fields_witness :
  "capacity" <> "_id" /\ "capacity" <> "id" /\
  dict_get "capacity" (serialize str_int (fun _ => "") (session_doc pottery_session))
  = Some (VInt 10).
Proof.
  assert (H1 : "capacity" <> "_id") by discriminate.
  assert (H2 : "capacity" <> "id") by discriminate.
  split; [exact H1|]. split; [exact H2|].
  rewrite (serialize_other_fields str_int (fun _ => "") (session_doc pottery_session) "capacity" H1 H2).
  reflexivity.
Defined.
